(** * Kalongo hotel back office: folio ledger, tax engine, POS settlement

    A shallow embedding of the Django views of [backend/hotel], [backend/pos],
    [backend/finance], [backend/core] and [backend/reports], and the
    properties of the guest-account (folio) life cycle proved over it.

    Conventions of the embedding.
    - The database is a record of tables; a table is the list of its rows in
      creation order.  [Model.objects.create] appends a row whose primary key
      is one more than the largest key of the table.
    - A view is a function from the database, the authenticated actor, the
      request data and the clock to the new database and a response.
    - Python's [Decimal] is embedded as an exact rational ([Qc]); the
      operations the views perform ([+], [-], [*], division by 100) are exact
      on decimals within the 28 significant digits of the default context.
      The rounding of a stored value to the decimal places of its column,
      done by the persistence layer, and the rendering of a decimal by
      [float] in a response are outside the embedding.
    - [with transaction.atomic()] is embedded by computing the block on a
      copy of the database and keeping the old database when the block
      raises.
    - A request is one the framework has parsed: its fields have their
      types; what the serializers still check (foreign keys, choices, the
      digits of a decimal) is embedded with the views. *)

From stdpp Require Import base numbers list strings pretty gmap.
From Stdlib Require Import QArith Qcanon Ascii.

Local Open Scope Qc_scope.

(** ** Decimals and aggregates *)

Abbreviation Decimal := Qc.

(** [Decimal(z)] for an integer [z]. *)
Definition D (z : Z) : Decimal := Qc_of_Z z.

Definition hundred : Decimal := D 100.

(** Truthiness of a [Decimal]: zero is falsy. *)
Definition decimal_truthy (d : Decimal) : bool := negb (Qc_eq_bool d 0).

(** [queryset.aggregate(s=Sum(field))['s']]: SQL's SUM is NULL on no rows. *)
Definition Sum (xs : list Decimal) : option Decimal :=
  match xs with
  | [] => None
  | x :: rest => Some (fold_left Qcplus rest x)
  end.

(** [value or Decimal('0')]. *)
Definition or_zero (o : option Decimal) : Decimal :=
  match o with
  | None => 0
  | Some d => if decimal_truthy d then d else 0
  end.

(** Plain sum of a list, used to state what the aggregates compute. *)
Definition total (xs : list Decimal) : Decimal := foldr Qcplus 0 xs.

(** ** Calendar *)

Record Date := mkDate { year : nat; month : nat; day : nat }.

Record DateTime := mkDateTime { date : Date; seconds : nat }.

Definition date_eqb (a b : Date) : bool :=
  (year a =? year b)%nat && (month a =? month b)%nat && (day a =? day b)%nat.

(** [a <= b] on dates, lexicographic on (year, month, day). *)
Definition date_leb (a b : Date) : bool :=
  if (year a <? year b)%nat then true
  else if (year b <? year a)%nat then false
  else if (month a <? month b)%nat then true
  else if (month b <? month a)%nat then false
  else (day a <=? day b)%nat.

(** [d.replace(day=1)]. *)
Definition replace_day_1 (d : Date) : Date :=
  {| year := year d; month := month d; day := 1 |}.

(** Zero padding of [strftime]: at least [w] digits. *)
Definition zero_pad (w : nat) (s : string) : string :=
  String.concat "" (replicate (w - String.length s) "0") +:+ s.

(** [d.strftime('%Y%m%d')]. *)
Definition strftime_Ymd (d : Date) : string :=
  zero_pad 4 (pretty (year d)) +:+ zero_pad 2 (pretty (month d))
    +:+ zero_pad 2 (pretty (day d)).

(** ** finance.models *)

Module Finance.

Inductive TaxType := inclusive | exclusive.

Definition tax_type_eqb (a b : TaxType) : bool :=
  match a, b with
  | inclusive, inclusive | exclusive, exclusive => true
  | _, _ => false
  end.

(** [class Tax]: [sectors] is the JSON list of sector codes, empty = all. *)
Record Tax := mkTax {
  tax_name : string;
  tax_code : string;
  percentage : Decimal;
  tax_type : TaxType;
  sectors : list string;
  is_active : bool
}.

(** [class Expense] and [class Salary], as far as the reports read them. *)
Record Expense := mkExpense {
  expense_sector : string;
  expense_amount : Decimal;
  expense_created_at : DateTime
}.

Record Salary := mkSalary {
  salary_amount : Decimal;
  salary_month : Date
}.

End Finance.

Export Finance.

(** [sector in t.sectors]. *)
Definition sector_in (sector : string) (l : list string) : bool :=
  existsb (String.eqb sector) l.

(** Truthiness of a list: the empty list is falsy. *)
Definition list_truthy {A} (l : list A) : bool :=
  match l with [] => false | _ => true end.

(** [Tax.objects.filter(is_active=True)].  The queryset comes ordered by
    [code]; the loops below add exact terms, so the order of the rows does
    not show in their result ([apply_taxes_order_irrelevant]). *)
Definition active_taxes (taxes : list Tax) : list Tax :=
  filter (fun t => is_active t = true) taxes.

(** ** The tax loops of the two charge sources *)

Module HotelTax.

(** hotel/views.py, [apply_taxes]: the body of the [for] loop. *)
Definition loop_body (amount_before_tax : Decimal) (sector : string)
    (tax_amount : Decimal) (t : Tax) : Decimal :=
  if list_truthy (sectors t) && negb (sector_in sector (sectors t))
  then tax_amount (* continue *)
  else if tax_type_eqb (tax_type t) exclusive
       then tax_amount + amount_before_tax * (percentage t / hundred)
       else tax_amount.

(** hotel/views.py, [apply_taxes]: returns [(tax_amount, amount_after_tax)]. *)
Definition apply_taxes (taxes : list Tax) (amount_before_tax : Decimal)
    (sector : string) : Decimal * Decimal :=
  let taxes := active_taxes taxes in
  let tax_amount := fold_left (loop_body amount_before_tax sector) taxes 0 in
  let amount_after_tax := amount_before_tax + tax_amount in
  (tax_amount, amount_after_tax).

End HotelTax.

Module PosTax.

(** pos/views.py, [_apply_taxes]: the loop written as a recursion over the
    queryset, the accumulator [tax_total] threaded through. *)
Fixpoint _apply_taxes_loop (amount : Decimal) (sector : string)
    (taxes : list Tax) (tax_total : Decimal) : Decimal :=
  match taxes with
  | [] => tax_total
  | t :: rest =>
      if list_truthy (sectors t) && negb (sector_in sector (sectors t))
      then _apply_taxes_loop amount sector rest tax_total
      else if tax_type_eqb (tax_type t) exclusive
           then _apply_taxes_loop amount sector rest
                  (tax_total + amount * (percentage t / hundred))
           else _apply_taxes_loop amount sector rest tax_total
  end.

(** pos/views.py, [_apply_taxes]: returns [tax_total] only. *)
Definition _apply_taxes (taxes : list Tax) (amount : Decimal)
    (sector : string) : Decimal :=
  _apply_taxes_loop amount sector (active_taxes taxes) 0.

End PosTax.

(** ** The tax engine as the specification words it *)

(** A tax applies to a sector when its scope is empty or contains it. *)
Definition sector_applicable (sector : string) (t : Tax) : bool :=
  match sectors t with
  | [] => true
  | l => sector_in sector l
  end.

(** The taxes that contribute: active, sector-applicable, exclusive. *)
Definition contributing (sector : string) (t : Tax) : bool :=
  is_active t && sector_applicable sector t && tax_type_eqb (tax_type t) exclusive.

(** Sum over the contributing taxes of [preTaxAmount * percentage/100]. *)
Definition spec_tax_amount (taxes : list Tax) (pre : Decimal) (sector : string)
    : Decimal :=
  total (map (fun t => pre * (percentage t / hundred))
             (filter (fun t => contributing sector t = true) taxes)).

(** The schedule of scenario A: VAT 18% exclusive, all sectors. *)
Definition vat18 : Tax :=
  mkTax "VAT" "VAT" (D 18) exclusive [] true.

(** ** core.models and core.permissions *)

Module Core.

(** [class User]: [role] holds the permission codes of the user's role
    ([None]: no role), [department] the code of the user's department. *)
Record User := mkUser {
  user_id : nat;
  is_authenticated : bool;
  is_superuser : bool;
  is_manager : bool;
  role : option (list string);
  department : option string
}.

(** [User.has_perm_code]. *)
Definition has_perm_code (u : User) (code : string) : bool :=
  match role u with
  | None => false
  | Some permissions => existsb (String.eqb code) permissions
  end.

(** [User.can_see_sector]. *)
Definition can_see_sector (u : User) (sector_code : string) : bool :=
  if is_manager u then true
  else match department u with
       | None => false
       | Some code => String.eqb code sector_code
       end.

(** [HasPermission.has_permission]; [permission_code] is the attribute of
    the view, absent on function views. *)
Definition has_permission (u : User) (permission_code : option string) : bool :=
  if negb (is_authenticated u) then false
  else if is_superuser u then true
  else match permission_code with
       | None => true
       | Some code => if String.eqb code "" then true else has_perm_code u code
       end.

End Core.

Export Core.

(** ** Responses and exceptions *)

Inductive Response (A : Type) : Type :=
| HTTP_200 (body : A)
| HTTP_201 (body : A)
| HTTP_400 (detail : string)
| HTTP_401
| HTTP_403 (detail : string)
| HTTP_404 (detail : string)
| HTTP_500 (exception : string).

Arguments HTTP_200 {A} body.
Arguments HTTP_201 {A} body.
Arguments HTTP_400 {A} detail.
Arguments HTTP_401 {A}.
Arguments HTTP_403 {A} detail.
Arguments HTTP_404 {A} detail.
Arguments HTTP_500 {A} exception.

(** The error names of the specification are the 400 responses of the views,
    told apart by their [detail]. *)
Definition InvalidStateError {A} : Response A :=
  HTTP_400 "Booking not in confirmable state".
Definition FolioClosedError {A} : Response A :=
  HTTP_400 "Cannot post to closed folio".
Definition NoFolioError {A} : Response A := HTTP_400 "No folio".
Definition AlreadyClosedError {A} : Response A := HTTP_400 "Folio already closed".
Definition ValidationError {A} : Response A := HTTP_400 "invalid".

(** A computation that returns or raises. *)
Inductive Exc (A : Type) : Type :=
| Return (a : A)
| Raise (exception : string).

Arguments Return {A} a.
Arguments Raise {A} exception.

Definition exc_bind {A B} (c : Exc A) (k : A -> Exc B) : Exc B :=
  match c with
  | Return a => k a
  | Raise e => Raise e
  end.

Notation "'try!' x <- c ; k" := (exc_bind c (fun x => k))
  (at level 10, x name, c at level 100, k at level 200).

(** Values of a JSON request body, and Python's truth value of them. *)
Inductive JSON :=
| JNull
| JBool (b : bool)
| JNumber (z : Z)
| JString (s : string).

Definition json_truthy (v : JSON) : bool :=
  match v with
  | JNull => false
  | JBool b => b
  | JNumber z => negb (z =? 0)%Z
  | JString s => negb (String.eqb s "")
  end.

(** ** hotel.models and pos.models *)

Inductive RoomStatus := vacant | occupied | reserved | maintenance.

Inductive BookingStatus := pending | confirmed | checked_in | checked_out | cancelled.

Inductive BookingSource := online | walk_in.

Inductive FolioStatus := open | closed.

Definition booking_status_eqb (a b : BookingStatus) : bool :=
  match a, b with
  | pending, pending | confirmed, confirmed | checked_in, checked_in
  | checked_out, checked_out | cancelled, cancelled => true
  | _, _ => false
  end.

Definition folio_status_eqb (a b : FolioStatus) : bool :=
  match a, b with
  | open, open | closed, closed => true
  | _, _ => false
  end.

Record Room := mkRoom {
  room_id : nat;
  room_number : string;
  room_status : RoomStatus
}.

Record Booking := mkBooking {
  booking_id : nat;
  guest : nat;
  room : nat;
  room_type : nat;
  check_in_date : Date;
  check_out_date : Date;
  source : BookingSource;
  booking_status : BookingStatus;
  special_requests : string;
  qr_token : option string;
  qr_submitted_at : option DateTime;
  qr_approved_at : option DateTime
}.

Record Folio := mkFolio {
  folio_id : nat;
  folio_booking : nat;
  is_primary : bool;
  folio_status : FolioStatus;
  closed_at : option DateTime
}.

Record FolioCharge := mkFolioCharge {
  charge_id : nat;
  charge_folio : nat;
  charge_sector : string;
  description : string;
  quantity : Decimal;
  unit_price : Decimal;
  amount_before_tax : Decimal;
  tax_amount : Decimal;
  amount_after_tax : Decimal;
  posted_by : nat;
  posted_at : DateTime;
  pos_order_id : option nat;
  room_night_date : option Date
}.

Record FolioPayment := mkFolioPayment {
  payment_id : nat;
  payment_folio : nat;
  amount : Decimal;
  method : string;
  reference : string;
  confirmed_by : nat;
  confirmed_at : DateTime;
  receipt_issued : bool
}.

Record Receipt := mkReceipt {
  receipt_id : nat;
  folio_payment : option nat;
  receipt_number : string;
  receipt_amount : Decimal;
  issued_at : DateTime;
  issued_by : nat
}.

Inductive OrderStatus :=
| STATUS_NEW | STATUS_PREPARING | STATUS_READY | STATUS_SERVED | STATUS_CANCELLED.

Inductive PaymentIntent := PAYMENT_PAY_NOW | PAYMENT_POST_TO_ROOM.

Definition payment_intent_eqb (a b : PaymentIntent) : bool :=
  match a, b with
  | PAYMENT_PAY_NOW, PAYMENT_PAY_NOW
  | PAYMENT_POST_TO_ROOM, PAYMENT_POST_TO_ROOM => true
  | _, _ => false
  end.

Record MenuItem := mkMenuItem {
  menu_item_id : nat;
  menu_item_name : string;
  price : Decimal;
  is_available : bool
}.

Record Order := mkOrder {
  order_id : nat;
  order_sector : string;
  order_status : OrderStatus;
  payment_intent : PaymentIntent;
  order_folio : option nat;
  table_or_room : string;
  created_by : nat;
  completed_at : option DateTime;
  total_before_tax : Decimal;
  total_tax : Decimal;
  total_amount : Decimal
}.

Record OrderItem := mkOrderItem {
  order_item_id : nat;
  item_order : nat;
  item_menu_item : nat;
  item_quantity : nat;
  item_unit_price : Decimal;
  line_total : Decimal;
  notes : string
}.

(** ** The database *)

Record DB := mkDB {
  rooms : list Room;
  bookings : list Booking;
  folios : list Folio;
  charges : list FolioCharge;
  payments : list FolioPayment;
  receipts : list Receipt;
  taxes : list Tax;
  menu_items : list MenuItem;
  orders : list Order;
  order_items : list OrderItem;
  expenses : list Expense;
  salaries : list Salary
}.

Definition set_rooms (db : DB) (v : list Room) : DB :=
  mkDB v (bookings db) (folios db) (charges db) (payments db) (receipts db)
       (taxes db) (menu_items db) (orders db) (order_items db) (expenses db)
       (salaries db).

Definition set_bookings (db : DB) (v : list Booking) : DB :=
  mkDB (rooms db) v (folios db) (charges db) (payments db) (receipts db)
       (taxes db) (menu_items db) (orders db) (order_items db) (expenses db)
       (salaries db).

Definition set_folios (db : DB) (v : list Folio) : DB :=
  mkDB (rooms db) (bookings db) v (charges db) (payments db) (receipts db)
       (taxes db) (menu_items db) (orders db) (order_items db) (expenses db)
       (salaries db).

Definition set_charges (db : DB) (v : list FolioCharge) : DB :=
  mkDB (rooms db) (bookings db) (folios db) v (payments db) (receipts db)
       (taxes db) (menu_items db) (orders db) (order_items db) (expenses db)
       (salaries db).

Definition set_payments (db : DB) (v : list FolioPayment) : DB :=
  mkDB (rooms db) (bookings db) (folios db) (charges db) v (receipts db)
       (taxes db) (menu_items db) (orders db) (order_items db) (expenses db)
       (salaries db).

Definition set_receipts (db : DB) (v : list Receipt) : DB :=
  mkDB (rooms db) (bookings db) (folios db) (charges db) (payments db) v
       (taxes db) (menu_items db) (orders db) (order_items db) (expenses db)
       (salaries db).

Definition set_orders (db : DB) (v : list Order) : DB :=
  mkDB (rooms db) (bookings db) (folios db) (charges db) (payments db)
       (receipts db) (taxes db) (menu_items db) v (order_items db)
       (expenses db) (salaries db).

Definition set_order_items (db : DB) (v : list OrderItem) : DB :=
  mkDB (rooms db) (bookings db) (folios db) (charges db) (payments db)
       (receipts db) (taxes db) (menu_items db) (orders db) v (expenses db)
       (salaries db).

(** The primary key given to the next row of a table. *)
Definition next_id (ids : list nat) : nat := S (foldr Nat.max 0%nat ids).

(** [Model.objects.filter(pk=pk).first()]. *)
Definition get_room (db : DB) (pk : nat) : option Room :=
  find (fun r => (room_id r =? pk)%nat) (rooms db).

Definition get_booking (db : DB) (pk : nat) : option Booking :=
  find (fun b => (booking_id b =? pk)%nat) (bookings db).

Definition get_folio (db : DB) (pk : nat) : option Folio :=
  find (fun f => (folio_id f =? pk)%nat) (folios db).

Definition get_menu_item (db : DB) (pk : nat) : option MenuItem :=
  find (fun m => (menu_item_id m =? pk)%nat) (menu_items db).

(** [obj.save(update_fields=[...])]: UPDATE ... WHERE id = pk. *)
Definition update_where {A} (key : A -> nat) (pk : nat) (f : A -> A)
    (rows : list A) : list A :=
  map (fun r => if (key r =? pk)%nat then f r else r) rows.

(** [with transaction.atomic(): block]: the writes of a block that raises
    are rolled back. *)
Definition atomic {A} (db : DB) (block : DB -> Exc (DB * A)) : DB * Exc A :=
  match block db with
  | Return (db', a) => (db', Return a)
  | Raise e => (db, Raise e)
  end.

(** The [permission_classes] of a view, run by the framework before the
    view's body: [IsAuthenticated], then [HasPermission] with the view's
    [permission_code].  [None] lets the request through. *)
Definition permission_classes {A} (user : User) (permission_code : option string)
    : option (Response A) :=
  if negb (is_authenticated user) then Some HTTP_401
  else if negb (has_permission user permission_code)
       then Some (HTTP_403 "You do not have permission to perform this action.")
       else None.

(** Validation of a [DecimalField(max_digits, decimal_places)]: at most
    [decimal_places] digits after the point and [max_digits - decimal_places]
    before it, decided on the value (the framework counts the digits as
    written, and so also refuses a value written with spare zeros, as
    [1.000] for two places). *)
Definition decimal_field_valid (max_digits decimal_places : nat) (d : Decimal)
    : bool :=
  let scaled := (this d * inject_Z (10 ^ Z.of_nat decimal_places))%Q in
  (Qden (Qred scaled) =? 1)%positive
  && (Z.abs (Qnum (Qred scaled)) <? 10 ^ Z.of_nat max_digits)%Z.

(** ** hotel.models: the methods of [Booking] and [Folio] *)

(** [Booking.folio]: the first primary folio of the booking in the model's
    ordering [-created_at], that is the one created last. *)
Definition booking_folio (db : DB) (b : Booking) : option Folio :=
  last (filter (fun f => (folio_booking f =? booking_id b)%nat && is_primary f)
               (folios db)).

(** [folio.charges] and [folio.payments], the reverse relations. *)
Definition folio_charges (db : DB) (f : Folio) : list FolioCharge :=
  filter (fun c => (charge_folio c =? folio_id f)%nat) (charges db).

Definition folio_payments (db : DB) (f : Folio) : list FolioPayment :=
  filter (fun p => (payment_folio p =? folio_id f)%nat) (payments db).

(** [Folio.total_charges]. *)
Definition total_charges (db : DB) (f : Folio) : Decimal :=
  or_zero (Sum (map amount_after_tax (folio_charges db f))).

(** [Folio.total_payments]. *)
Definition total_payments (db : DB) (f : Folio) : Decimal :=
  or_zero (Sum (map amount (folio_payments db f))).

(** [Folio.balance]. *)
Definition balance (db : DB) (f : Folio) : Decimal :=
  total_charges db f - total_payments db f.

(** [Folio.can_post_charges]. *)
Definition can_post_charges (f : Folio) : bool :=
  folio_status_eqb (folio_status f) open.

(** ** hotel.views *)

Definition set_room_status (s : RoomStatus) (r : Room) : Room :=
  mkRoom (room_id r) (room_number r) s.

Definition set_booking_status (s : BookingStatus) (b : Booking) : Booking :=
  mkBooking (booking_id b) (guest b) (room b) (room_type b) (check_in_date b)
            (check_out_date b) (source b) s (special_requests b) (qr_token b)
            (qr_submitted_at b) (qr_approved_at b).

Definition close_folio (now : DateTime) (f : Folio) : Folio :=
  mkFolio (folio_id f) (folio_booking f) (is_primary f) closed (Some now).

(** [booking.room]: the row the foreign key points to. *)
Definition booking_room (db : DB) (b : Booking) : Exc Room :=
  match get_room db (room b) with
  | Some r => Return r
  | None => Raise "Room.DoesNotExist"
  end.

(** [check_in(request, pk)]. *)
Definition check_in (db : DB) (user : User) (pk : nat) : DB * Response Folio :=
  match permission_classes user None with
  | Some denied => (db, denied)
  | None =>
  let permission_code := "create_booking" in
  if negb (has_perm_code user permission_code) && negb (is_superuser user)
  then (db, HTTP_403 "Permission denied")
  else
  match get_booking db pk with
  | None => (db, HTTP_404 "Not found")
  | Some booking =>
  if negb (booking_status_eqb (booking_status booking) confirmed)
     && negb (booking_status_eqb (booking_status booking) pending)
  then (db, HTTP_400 "Booking not in confirmable state")
  else
  let (db', result) := atomic db (fun db =>
    let folio :=
      mkFolio (next_id (map folio_id (folios db))) (booking_id booking)
              true open None in
    let db := set_folios db (folios db ++ [folio]) in
    try! room <- booking_room db booking;
    let db := set_rooms db
      (update_where room_id (room_id room) (set_room_status occupied) (rooms db)) in
    let db := set_bookings db
      (update_where booking_id (booking_id booking)
                    (set_booking_status checked_in) (bookings db)) in
    Return (db, folio)) in
  match result with
  | Return folio => (db', HTTP_200 folio)
  | Raise e => (db', HTTP_500 e)
  end
  end
  end.

(** The invoice snapshot returned by check-out. *)
Record Invoice := mkInvoice {
  invoice_total_charges : Decimal;
  invoice_total_payments : Decimal;
  invoice_balance : Decimal
}.

(** [check_out(request, pk)]. *)
Definition check_out (db : DB) (user : User) (pk : nat) (now : DateTime)
    : DB * Response (Folio * Invoice) :=
  match permission_classes user None with
  | Some denied => (db, denied)
  | None =>
  if negb (has_perm_code user "check_out_booking") && negb (is_superuser user)
  then (db, HTTP_403 "Permission denied")
  else
  match get_booking db pk with
  | None => (db, HTTP_404 "Not found")
  | Some booking =>
  match booking_folio db booking with
  | None => (db, HTTP_400 "No folio")
  | Some folio =>
  if folio_status_eqb (folio_status folio) closed
  then (db, HTTP_400 "Folio already closed")
  else
  let (db', result) := atomic db (fun db =>
    let folio := close_folio now folio in
    let db := set_folios db
      (update_where folio_id (folio_id folio) (close_folio now) (folios db)) in
    try! room <- booking_room db booking;
    let db := set_rooms db
      (update_where room_id (room_id room) (set_room_status vacant) (rooms db)) in
    let db := set_bookings db
      (update_where booking_id (booking_id booking)
                    (set_booking_status checked_out) (bookings db)) in
    Return (db, folio)) in
  match result with
  | Return folio =>
      (db', HTTP_200 (folio,
                      mkInvoice (total_charges db' folio)
                                (total_payments db' folio)
                                (balance db' folio)))
  | Raise e => (db', HTTP_500 e)
  end
  end
  end
  end.

(** [FolioCharge.SECTOR_CHOICES] and [FolioPayment.METHOD_CHOICES]. *)
Definition SECTOR_CHOICES : list string :=
  ["rooms"; "restaurant"; "bar"; "housekeeping"; "activities"].

Definition METHOD_CHOICES : list string :=
  ["cash"; "mpesa"; "airtel_money"; "tigo_pesa"; "bank_transfer"; "card"].

(** The request body of [post_charge]. *)
Record ChargeData := mkChargeData {
  data_folio : nat;
  data_sector : string;
  data_description : string;
  data_quantity : Decimal;
  data_unit_price : Decimal;
  data_room_night_date : option Date
}.

(** [FolioChargePostSerializer(data=...).is_valid()]; on success
    [validated_data['folio']] is the folio row. *)
Definition FolioChargePostSerializer (db : DB) (data : ChargeData) : option Folio :=
  match get_folio db (data_folio data) with
  | None => None
  | Some folio =>
      if sector_in (data_sector data) SECTOR_CHOICES
         && negb (String.eqb (data_description data) "")
         && (String.length (data_description data) <=? 256)%nat
         && decimal_field_valid 10 2 (data_quantity data)
         && decimal_field_valid 12 2 (data_unit_price data)
      then Some folio else None
  end.

(** [post_charge(request)]. *)
Definition post_charge (db : DB) (user : User) (data : ChargeData)
    (now : DateTime) : DB * Response FolioCharge :=
  match permission_classes user None with
  | Some denied => (db, denied)
  | None =>
  if negb (has_perm_code user "post_charge") && negb (is_superuser user)
  then (db, HTTP_403 "Permission denied")
  else
  match FolioChargePostSerializer db data with
  | None => (db, ValidationError)
  | Some folio =>
  if negb (can_post_charges folio)
  then (db, HTTP_400 "Cannot post to closed folio")
  else
  let amount_before := data_quantity data * data_unit_price data in
  let '(tax, amount_after) :=
    HotelTax.apply_taxes (taxes db) amount_before (data_sector data) in
  let charge :=
    mkFolioCharge (next_id (map charge_id (charges db))) (folio_id folio)
                  (data_sector data) (data_description data)
                  (data_quantity data) (data_unit_price data)
                  amount_before tax amount_after
                  (user_id user) now None (data_room_night_date data) in
  (set_charges db (charges db ++ [charge]), HTTP_201 charge)
  end
  end.

(** The request body of [post_payment]; [data_issue_receipt] is
    [request.data.get('issue_receipt')], absent when [None]. *)
Record PaymentData := mkPaymentData {
  data_payment_folio : nat;
  data_amount : Decimal;
  data_method : string;
  data_reference : option string;
  data_issue_receipt : option JSON
}.

(** [FolioPaymentPostSerializer(data=...).is_valid()]. *)
Definition FolioPaymentPostSerializer (db : DB) (data : PaymentData)
    : option Folio :=
  match get_folio db (data_payment_folio data) with
  | None => None
  | Some folio =>
      if sector_in (data_method data) METHOD_CHOICES
         && decimal_field_valid 12 2 (data_amount data)
         && (String.length (default "" (data_reference data)) <=? 128)%nat
      then Some folio else None
  end.

(** [f"RCP-{payment.id}-{timezone.now().strftime('%Y%m%d')}"]. *)
Definition make_receipt_number (payment : FolioPayment) (now : DateTime) : string :=
  "RCP-" +:+ pretty (payment_id payment) +:+ "-" +:+ strftime_Ymd (date now).

(** [Receipt.objects.create]: [receipt_number] is unique and [folio_payment]
    is one-to-one; a clash raises [IntegrityError]. *)
Definition Receipt_create (db : DB) (r : Receipt) : Exc DB :=
  if existsb (fun r' => String.eqb (receipt_number r') (receipt_number r))
             (receipts db)
     || existsb (fun r' => bool_decide (folio_payment r' = folio_payment r)
                           && bool_decide (folio_payment r <> None))
                (receipts db)
  then Raise "IntegrityError"
  else Return (set_receipts db (receipts db ++ [r])).

Definition set_receipt_issued (v : bool) (p : FolioPayment) : FolioPayment :=
  mkFolioPayment (payment_id p) (payment_folio p) (amount p) (method p)
                 (reference p) (confirmed_by p) (confirmed_at p) v.

(** [post_payment(request)]; the view opens no transaction, so the payment
    row stays when issuing the receipt raises. *)
Definition post_payment (db : DB) (user : User) (data : PaymentData)
    (now : DateTime) : DB * Response FolioPayment :=
  match permission_classes user None with
  | Some denied => (db, denied)
  | None =>
  if negb (has_perm_code user "post_payment") && negb (is_superuser user)
  then (db, HTTP_403 "Permission denied")
  else
  match FolioPaymentPostSerializer db data with
  | None => (db, ValidationError)
  | Some folio =>
  let payment :=
    mkFolioPayment (next_id (map payment_id (payments db))) (folio_id folio)
                   (data_amount data) (data_method data)
                   (default "" (data_reference data)) (user_id user) now false in
  let db := set_payments db (payments db ++ [payment]) in
  let issue_receipt := default (JBool true) (data_issue_receipt data) in
  if json_truthy issue_receipt then
    let receipt_number := make_receipt_number payment now in
    match Receipt_create db
            (mkReceipt (next_id (map receipt_id (receipts db)))
                       (Some (payment_id payment)) receipt_number
                       (amount payment) now (user_id user)) with
    | Raise e => (db, HTTP_500 e)
    | Return db =>
        let payment := set_receipt_issued true payment in
        let db := set_payments db
          (update_where payment_id (payment_id payment)
                        (set_receipt_issued true) (payments db)) in
        (db, HTTP_201 payment)
    end
  else (db, HTTP_201 payment)
  end
  end.

(** The request body of [BookingCreate]. *)
Record BookingCreateData := mkBookingCreateData {
  new_guest : nat;
  new_room : nat;
  new_room_type : nat;
  new_check_in_date : Date;
  new_check_out_date : Date;
  new_source : option BookingSource;
  new_special_requests : option string
}.

(** [BookingCreate.post]: [BookingCreateSerializer] validates the foreign
    keys (of which the room table is modelled), [perform_create] saves the
    booking and gives it the token [secrets.token_urlsafe(32)], passed here
    as [token].  No folio is created. *)
Definition BookingCreate (db : DB) (user : User) (data : BookingCreateData)
    (token : string) : DB * Response Booking :=
  match permission_classes user (Some "create_booking") with
  | Some denied => (db, denied)
  | None =>
  match get_room db (new_room data) with
  | None => (db, ValidationError)
  | Some _ =>
  let (db', result) := atomic db (fun db =>
    let booking :=
      mkBooking (next_id (map booking_id (bookings db))) (new_guest data)
                (new_room data) (new_room_type data) (new_check_in_date data)
                (new_check_out_date data) (default walk_in (new_source data))
                pending (default "" (new_special_requests data))
                None None None in
    let db := set_bookings db (bookings db ++ [booking]) in
    if existsb (fun b => bool_decide (qr_token b = Some token)) (bookings db)
    then Raise "IntegrityError"
    else
      let set_token b :=
        mkBooking (booking_id b) (guest b) (room b) (room_type b)
                  (check_in_date b) (check_out_date b) (source b)
                  (booking_status b) (special_requests b) (Some token)
                  (qr_submitted_at b) (qr_approved_at b) in
      Return (set_bookings db
                (update_where booking_id (booking_id booking) set_token
                              (bookings db)),
              set_token booking)) in
  match result with
  | Return booking => (db', HTTP_201 booking)
  | Raise e => (db', HTTP_500 e)
  end
  end
  end.

(** The request body of a PATCH on [BookingDetail]: the writable fields of
    [BookingSerializer], each optional; a PUT carries them all. *)
Record BookingUpdateData := mkBookingUpdateData {
  upd_guest : option nat;
  upd_room : option nat;
  upd_room_type : option nat;
  upd_check_in_date : option Date;
  upd_check_out_date : option Date;
  upd_source : option BookingSource;
  upd_status : option BookingStatus;
  upd_special_requests : option string
}.

Definition apply_booking_update (data : BookingUpdateData) (b : Booking) : Booking :=
  mkBooking (booking_id b)
            (default (guest b) (upd_guest data))
            (default (room b) (upd_room data))
            (default (room_type b) (upd_room_type data))
            (default (check_in_date b) (upd_check_in_date data))
            (default (check_out_date b) (upd_check_out_date data))
            (default (source b) (upd_source data))
            (default (booking_status b) (upd_status data))
            (default (special_requests b) (upd_special_requests data))
            (qr_token b) (qr_submitted_at b) (qr_approved_at b).

(** [BookingDetail.patch] ([RetrieveUpdateAPIView] with [BookingSerializer],
    whose read-only fields are the three QR fields). *)
Definition BookingDetail_update (db : DB) (user : User) (pk : nat)
    (data : BookingUpdateData) : DB * Response Booking :=
  match permission_classes user (Some "view_bookings") with
  | Some denied => (db, denied)
  | None =>
  match get_booking db pk with
  | None => (db, HTTP_404 "Not found")
  | Some booking =>
  let room_exists :=
    match upd_room data with
    | Some room_pk => bool_decide (is_Some (get_room db room_pk))
    | None => true
    end in
  if negb room_exists then (db, ValidationError)
  else
    (set_bookings db
       (update_where booking_id (booking_id booking)
                     (apply_booking_update data) (bookings db)),
     HTTP_200 (apply_booking_update data booking))
  end
  end.

(** ** pos.serializers and pos.views *)

(** One element of [items]: [{"menu_item_id": .., "quantity": .., "notes": ..}]. *)
Record OrderRow := mkOrderRow {
  row_menu_item_id : nat;
  row_quantity : option nat;
  row_notes : option string
}.

(** The request body of [OrderListCreate.create]. *)
Record OrderCreateData := mkOrderCreateData {
  data_order_sector : string;
  data_payment_intent : option PaymentIntent;
  data_folio_id : option nat;
  data_table_or_room : option string;
  data_items : list OrderRow
}.

(** [OrderCreateSerializer(data=...).is_valid()]: the sector is one of
    [Order.SECTOR_RESTAURANT], [Order.SECTOR_BAR]. *)
Definition OrderCreateSerializer_is_valid (data : OrderCreateData) : bool :=
  sector_in (data_order_sector data) ["restaurant"; "bar"].

(** [order.get_sector_display()]. *)
Definition get_sector_display (sector : string) : string :=
  if String.eqb sector "restaurant" then "Restaurant"
  else if String.eqb sector "bar" then "Bar"
  else sector.

Definition set_order_totals (before tax after : Decimal) (o : Order) : Order :=
  mkOrder (order_id o) (order_sector o) (order_status o) (payment_intent o)
          (order_folio o) (table_or_room o) (created_by o) (completed_at o)
          before tax after.

Definition set_completed_at (t : DateTime) (o : Order) : Order :=
  mkOrder (order_id o) (order_sector o) (order_status o) (payment_intent o)
          (order_folio o) (table_or_room o) (created_by o) (Some t)
          (total_before_tax o) (total_tax o) (total_amount o).

(** [OrderCreateSerializer.create]: the [for row in items_data] loop, with
    the database and [total_before] threaded through. *)
Fixpoint create_items (order : Order) (items_data : list OrderRow)
    (db : DB) (total_before : Decimal) : Exc (DB * Decimal) :=
  match items_data with
  | [] => Return (db, total_before)
  | row :: rest =>
      match get_menu_item db (row_menu_item_id row) with
      | None => Raise "MenuItem.DoesNotExist"
      | Some mi =>
          let qty := default 1%nat (row_quantity row) in
          let unit := price mi in
          let line_total := unit * D (Z.of_nat qty) in
          let total_before := total_before + line_total in
          let item :=
            mkOrderItem (next_id (map order_item_id (order_items db)))
                        (order_id order) (menu_item_id mi) qty unit line_total
                        (default "" (row_notes row)) in
          create_items order rest
            (set_order_items db (order_items db ++ [item])) total_before
      end
  end.

(** [OrderCreateSerializer.create]: the tax pass written inline after the
    items loop. *)
Definition create_tax_total (taxes : list Tax) (order_sector : string)
    (total_before : Decimal) : Decimal :=
  fold_left
    (fun tax_total t =>
       if list_truthy (sectors t) && negb (sector_in order_sector (sectors t))
       then tax_total
       else match tax_type t with
            | exclusive => tax_total + total_before * (percentage t / hundred)
            | inclusive => tax_total
            end)
    (active_taxes taxes) 0.

(** [OrderCreateSerializer.create(validated_data)]. *)
Definition OrderCreateSerializer_create (db : DB) (user : User)
    (validated_data : OrderCreateData) : Exc (DB * Order) :=
  let items_data := data_items validated_data in
  let folio_id' := data_folio_id validated_data in
  let intent := default PAYMENT_PAY_NOW (data_payment_intent validated_data) in
  let folio :=
    match folio_id' with
    | Some pk =>
        if negb (pk =? 0)%nat && payment_intent_eqb intent PAYMENT_POST_TO_ROOM
        then get_folio db pk else None
    | None => None
    end in
  let order :=
    mkOrder (next_id (map order_id (orders db)))
            (data_order_sector validated_data) STATUS_NEW intent
            (folio_id <$> folio)
            (default "" (data_table_or_room validated_data))
            (user_id user) None 0 0 0 in
  let db := set_orders db (orders db ++ [order]) in
  try! r <- create_items order items_data db 0;
  let '(db, total_before) := r in
  let tax_total := create_tax_total (taxes db) (order_sector order) total_before in
  let order := set_order_totals total_before tax_total (total_before + tax_total) order in
  let db := set_orders db
    (update_where order_id (order_id order)
                  (fun _ => order) (orders db)) in
  Return (db, order).

(** [OrderListCreate.create(request)]. *)
Definition OrderListCreate_create (db : DB) (user : User)
    (data : OrderCreateData) (now : DateTime) : DB * Response Order :=
  match permission_classes user (Some "create_pos_order") with
  | Some denied => (db, denied)
  | None =>
  if negb (OrderCreateSerializer_is_valid data) then (db, ValidationError)
  else
  let (db', result) := atomic db (fun db =>
    try! r <- OrderCreateSerializer_create db user data;
    let '(db, order) := r in
    let db :=
      match payment_intent order, order_folio order with
      | PAYMENT_POST_TO_ROOM, Some folio_pk =>
          let charge :=
            mkFolioCharge (next_id (map charge_id (charges db))) folio_pk
              (order_sector order)
              ("POS Order #" +:+ pretty (order_id order) +:+ " ("
                 +:+ get_sector_display (order_sector order) +:+ ")")
              1 (total_amount order) (total_before_tax order)
              (total_tax order) (total_amount order)
              (user_id user) now (Some (order_id order)) None in
          set_charges db (charges db ++ [charge])
      | _, _ => db
      end in
    let order := set_completed_at now order in
    let db := set_orders db
      (update_where order_id (order_id order) (set_completed_at now)
                    (orders db)) in
    Return (db, order)) in
  match result with
  | Return order => (db', HTTP_201 order)
  | Raise e => (db', HTTP_500 e)
  end
  end.

(** ** reports.views *)

Definition on_date (d : Date) (t : DateTime) : bool := date_eqb (date t) d.

Definition since_date (d : Date) (t : DateTime) : bool := date_leb d (date t).

Definition until_date (d : Date) (t : DateTime) : bool := date_leb (date t) d.

(** A lookup on the nullable [completed_at] never matches NULL. *)
Definition completed (test : DateTime -> bool) (o : Order) : bool :=
  match completed_at o with
  | Some t => test t
  | None => false
  end.

Definition string_truthy (s : string) : bool := negb (String.eqb s "").

(** [_sales_queryset(user, from_date, to_date, sector)]. *)
Definition _sales_queryset (db : DB) (user : User) (from_date to_date : option Date)
    (sector : option string) : list FolioCharge * list Order :=
  let q_charges := charges db in
  let q_orders := filter (fun o => completed (fun _ => true) o) (orders db) in
  let '(q_charges, q_orders) :=
    match from_date with
    | Some d =>
        (filter (fun c => since_date d (posted_at c)) q_charges,
         filter (fun o => completed (since_date d) o) q_orders)
    | None => (q_charges, q_orders)
    end in
  let '(q_charges, q_orders) :=
    match to_date with
    | Some d =>
        (filter (fun c => until_date d (posted_at c)) q_charges,
         filter (fun o => completed (until_date d) o) q_orders)
    | None => (q_charges, q_orders)
    end in
  let '(q_charges, q_orders) :=
    match sector with
    | Some s =>
        if string_truthy s
        then (filter (fun c => String.eqb (charge_sector c) s) q_charges,
              filter (fun o => String.eqb (order_sector o) s) q_orders)
        else (q_charges, q_orders)
    | None => (q_charges, q_orders)
    end in
  match department user with
  | Some sec =>
      if negb (is_manager user)
      then (filter (fun c => String.eqb (charge_sector c) sec) q_charges,
            filter (fun o => String.eqb (order_sector o) sec) q_orders)
      else (q_charges, q_orders)
  | None => (q_charges, q_orders)
  end.

(** The body of the dashboard response; the figures are the decimals the
    view hands to [float] for rendering. *)
Record Dashboard := mkDashboard {
  total_sales : Decimal;
  sales_today : Decimal;
  sales_this_month : Decimal;
  total_expenses : Decimal;
  total_salaries : Decimal;
  expenses_this_month : Decimal;
  salaries_this_month : Decimal;
  net_profit : Decimal;
  net_profit_this_month : Decimal;
  sales_per_sector : list (string * string * Decimal)
}.

Definition sum_charges (q : list FolioCharge) : Decimal :=
  or_zero (Sum (map amount_after_tax q)).

Definition sum_orders (q : list Order) : Decimal :=
  or_zero (Sum (map total_amount q)).

Definition SECTOR_LABELS : list (string * string) :=
  [("rooms", "Rooms"); ("restaurant", "Restaurant"); ("bar", "Bar");
   ("housekeeping", "Housekeeping"); ("activities", "Activities")].

(** [dashboard(request)]; [now] is [timezone.now()]. *)
Definition dashboard (db : DB) (user : User) (now : DateTime) : Response Dashboard :=
  if negb (is_authenticated user) then HTTP_401
  else
  if negb (has_perm_code user "view_reports") && negb (is_superuser user)
  then HTTP_403 "Permission denied"
  else
  let today := date now in
  let month_start := replace_day_1 today in
  let '(q_charges, q_orders) := _sales_queryset db user None None None in
  let q_charges_today := filter (fun c => on_date today (posted_at c)) (charges db) in
  let q_orders_today := filter (fun o => completed (on_date today) o) (orders db) in
  let '(q_charges_today, q_orders_today) :=
    match department user with
    | Some sec =>
        if negb (is_manager user)
        then (filter (fun c => String.eqb (charge_sector c) sec) q_charges_today,
              filter (fun o => String.eqb (order_sector o) sec) q_orders_today)
        else (q_charges_today, q_orders_today)
    | None => (q_charges_today, q_orders_today)
    end in
  let total_sales := sum_charges q_charges + sum_orders q_orders in
  let sales_today := sum_charges q_charges_today + sum_orders q_orders_today in
  let sales_this_month :=
    sum_charges (filter (fun c => since_date month_start (posted_at c)) (charges db))
    + sum_orders (filter (fun o => completed (since_date month_start) o) (orders db)) in
  let total_expenses := or_zero (Sum (map expense_amount (expenses db))) in
  let total_salaries := or_zero (Sum (map salary_amount (salaries db))) in
  let expenses_this_month :=
    or_zero (Sum (map expense_amount
                (filter (fun e => since_date month_start (expense_created_at e))
                        (expenses db)))) in
  let salaries_this_month :=
    or_zero (Sum (map salary_amount
                (filter (fun s => date_leb month_start (salary_month s))
                        (salaries db)))) in
  let net_profit := total_sales - total_expenses - total_salaries in
  let net_profit_month :=
    sales_this_month - expenses_this_month - salaries_this_month in
  let sectors_data :=
    fold_left
      (fun sectors_data '(code, label) =>
         if negb (is_manager user)
            && match department user with
               | Some dep => negb (String.eqb dep code)
               | None => false
               end
         then sectors_data (* continue *)
         else
           let c := sum_charges
                      (filter (fun c => String.eqb (charge_sector c) code)
                              (charges db)) in
           let o := sum_orders
                      (filter (fun o => String.eqb (order_sector o) code)
                              (orders db)) in
           sectors_data ++ [(code, label, c + o)])
      SECTOR_LABELS [] in
  HTTP_200
    (mkDashboard total_sales sales_today sales_this_month total_expenses
                 total_salaries expenses_this_month salaries_this_month
                 net_profit net_profit_month sectors_data).

(** ** The system as a state machine *)

(** The requests of the specification's operations. *)
Inductive Request :=
| BookingCreateRequest (data : BookingCreateData) (token : string)
| BookingUpdateRequest (pk : nat) (data : BookingUpdateData)
| CheckInRequest (pk : nat)
| CheckOutRequest (pk : nat)
| PostChargeRequest (data : ChargeData)
| PostPaymentRequest (data : PaymentData)
| CreateOrderRequest (data : OrderCreateData).

(** The database after the view has served the request. *)
Definition serve (db : DB) (user : User) (now : DateTime) (request : Request)
    : DB :=
  match request with
  | BookingCreateRequest data token => fst (BookingCreate db user data token)
  | BookingUpdateRequest pk data => fst (BookingDetail_update db user pk data)
  | CheckInRequest pk => fst (check_in db user pk)
  | CheckOutRequest pk => fst (check_out db user pk now)
  | PostChargeRequest data => fst (post_charge db user data now)
  | PostPaymentRequest data => fst (post_payment db user data now)
  | CreateOrderRequest data => fst (OrderListCreate_create db user data now)
  end.

(** The states reached from [db0] by any sequence of requests among the
    [allowed] ones, of any actors at any times. *)
Inductive reachable_by (allowed : Request -> Prop) (db0 : DB) : DB -> Prop :=
| reachable_start : reachable_by allowed db0 db0
| reachable_serve (db : DB) (user : User) (now : DateTime) (request : Request) :
    allowed request ->
    reachable_by allowed db0 db ->
    reachable_by allowed db0 (serve db user now request).

(** The states reached by any sequence of requests. *)
Definition reachable : DB -> DB -> Prop := reachable_by (fun _ => True).

(** ** Vocabulary of the properties *)

(** Equality of two closed decimals, decided on their reduced fractions. *)
Ltac decimal_eq := apply Qc_is_canon; vm_compute; reflexivity.

(** The actor is authenticated and holds the permission [code], or is a
    superuser: the request passes the checks at the head of a view. *)
Definition authorized (user : User) (code : string) : Prop :=
  is_authenticated user = true
  /\ (has_perm_code user code = true \/ is_superuser user = true).

(** The folio a successful check-in of [booking] creates. *)
Definition checked_in_folio (db : DB) (booking : Booking) : Folio :=
  mkFolio (next_id (map folio_id (folios db))) (booking_id booking) true open None.

(** The database a successful check-in of [booking] leaves. *)
Definition checked_in_db (db : DB) (booking : Booking) : DB :=
  set_bookings
    (set_rooms (set_folios db (folios db ++ [checked_in_folio db booking]))
       (update_where room_id (room booking) (set_room_status occupied) (rooms db)))
    (update_where booking_id (booking_id booking)
                  (set_booking_status checked_in) (bookings db)).

(** The database a successful check-out of [booking] leaves. *)
Definition checked_out_db (db : DB) (booking : Booking) (folio : Folio)
    (now : DateTime) : DB :=
  set_bookings
    (set_rooms
       (set_folios db
          (update_where folio_id (folio_id folio) (close_folio now) (folios db)))
       (update_where room_id (room booking) (set_room_status vacant) (rooms db)))
    (update_where booking_id (booking_id booking)
                  (set_booking_status checked_out) (bookings db)).

(** The payment row that [post_payment] builds. *)
Definition new_payment (db : DB) (user : User) (data : PaymentData)
    (now : DateTime) (folio : Folio) (issued : bool) : FolioPayment :=
  mkFolioPayment (next_id (map payment_id (payments db))) (folio_id folio)
                 (data_amount data) (data_method data)
                 (default "" (data_reference data)) (user_id user) now issued.

(** The receipt row that [post_payment] builds for that payment. *)
Definition new_receipt (db : DB) (user : User) (data : PaymentData)
    (now : DateTime) : Receipt :=
  mkReceipt (next_id (map receipt_id (receipts db)))
            (Some (next_id (map payment_id (payments db))))
            ("RCP-" +:+ pretty (next_id (map payment_id (payments db))) +:+ "-"
               +:+ strftime_Ymd (date now))
            (data_amount data) now (user_id user).

(** The number and the link that [post_payment] will give its receipt are
    not taken by a receipt of the database. *)
Definition receipt_slot_free (db : DB) (now : DateTime) : Prop :=
  let pk := next_id (map payment_id (payments db)) in
  forall r, In r (receipts db) ->
    receipt_number r <>
      "RCP-" +:+ pretty pk +:+ "-" +:+ strftime_Ymd (date now)
    /\ folio_payment r <> Some pk.

(** A string without the separator of receipt numbers. *)
Fixpoint no_dash (s : string) : bool :=
  match s with
  | EmptyString => true
  | String c s => negb (Ascii.eqb c "-"%char) && no_dash s
  end.

(** Every receipt belongs to a payment of the database and carries the
    number [post_payment] makes for that payment. *)
Definition receipts_follow_payments (db : DB) : Prop :=
  forall r, In r (receipts db) ->
    exists pk d,
      In pk (map payment_id (payments db))
      /\ folio_payment r = Some pk
      /\ receipt_number r = "RCP-" +:+ pretty pk +:+ "-" +:+ strftime_Ymd d.

(** The aggregate charge the view posts for [order] on folio [pk]. *)
Definition order_charge (db : DB) (user : User) (now : DateTime) (order : Order)
    (pk : nat) : FolioCharge :=
  mkFolioCharge (next_id (map charge_id (charges db))) pk (order_sector order)
    ("POS Order #" +:+ pretty (order_id order) +:+ " ("
       +:+ get_sector_display (order_sector order) +:+ ")")
    1 (total_amount order) (total_before_tax order) (total_tax order)
    (total_amount order) (user_id user) now (Some (order_id order)) None.

(** The charges a view has added to the ledger. *)
Definition new_charges (db db' : DB) : list FolioCharge :=
  drop (length (charges db)) (charges db').

(** The pre-tax amount is quantity times unit price, the post-tax amount is
    the pre-tax amount plus the tax amount. *)
Definition charge_amounts_derived (c : FolioCharge) : Prop :=
  amount_before_tax c = quantity c * unit_price c
  /\ amount_after_tax c = amount_before_tax c + tax_amount c.

(** The shape of the aggregate charge of a POS order: one unit, priced at the
    post-tax total. *)
Definition charge_amounts_aggregate (c : FolioCharge) : Prop :=
  quantity c = 1
  /\ unit_price c = amount_after_tax c
  /\ amount_after_tax c = amount_before_tax c + tax_amount c.

(** The primary folios of booking [pk]. *)
Definition primary_folios (db : DB) (pk : nat) : list Folio :=
  filter (fun f => (folio_booking f =? pk)%nat && is_primary f) (folios db).

(** The folios of a booking, primary or not. *)
Definition folios_of (db : DB) (pk : nat) : list Folio :=
  filter (fun f => (folio_booking f =? pk)%nat) (folios db).

(** The stay of a booking has started: it is checked in or checked out. *)
Definition stay_started (s : BookingStatus) : bool :=
  match s with
  | checked_in | checked_out => true
  | pending | confirmed | cancelled => false
  end.

(** The folios follow check-in: a folio belongs to a booking on file, the
    stay of a booking with a folio has started, and no booking has two
    folios. *)
Definition folios_follow_check_in (db : DB) : Prop :=
  (forall f, In f (folios db) ->
     In (folio_booking f) (map booking_id (bookings db)))
  /\ (forall f b, In f (folios db) -> In b (bookings db) ->
        booking_id b = folio_booking f ->
        stay_started (booking_status b) = true)
  /\ (forall pk, (length (folios_of db pk) <= 1)%nat).

(** A request that does not write the status of a booking by hand: any
    request but an update that carries a status. *)
Definition keeps_booking_status (request : Request) : Prop :=
  match request with
  | BookingUpdateRequest _ data => upd_status data = None
  | _ => True
  end.

(** Two databases hold the same charges and the same orders of sector
    [sec]; their rows of other sectors are free to differ. *)
Definition sector_rows_agree (sec : string) (db1 db2 : DB) : Prop :=
  filter (fun c => String.eqb (charge_sector c) sec) (charges db1)
  = filter (fun c => String.eqb (charge_sector c) sec) (charges db2)
  /\ filter (fun o => String.eqb (order_sector o) sec) (orders db1)
    = filter (fun o => String.eqb (order_sector o) sec) (orders db2).

(** ** Data of the scenarios *)

(** The clock of the scenarios. *)
Definition noon : DateTime := mkDateTime (mkDate 2024 5 17) 720.

(** Two actors: a receptionist of the front office and a waiter of the
    restaurant, neither a manager nor a superuser. *)
Definition receptionist : User :=
  mkUser 1 true false false
    (Some ["create_booking"; "check_out_booking"; "post_charge"; "post_payment";
           "view_bookings"; "view_folio"])
    (Some "front_office").

Definition waiter : User :=
  mkUser 2 true false false
    (Some ["create_pos_order"; "view_pos_orders"; "view_reports"])
    (Some "restaurant").

(** Room 101 and a pending booking of it. *)
Definition room_101 : Room := mkRoom 1 "101" vacant.

Definition booking_1 : Booking :=
  mkBooking 1 1 1 1 (mkDate 2024 5 17) (mkDate 2024 5 19) walk_in pending ""
            (Some "token-1") None None.

(** One room, one pending booking, VAT 18% on all sectors, two bar items. *)
Definition sample_db : DB :=
  mkDB [room_101] [booking_1] [] [] [] [] [vat18]
       [mkMenuItem 1 "Beer" (D 4000) true; mkMenuItem 2 "Juice" (D 2000) true]
       [] [] [] [].

(** The rows of the stay of booking 1. *)
Definition folio_1 : Folio := mkFolio 1 1 true open None.

Definition charge_1 : FolioCharge :=
  mkFolioCharge 1 1 "restaurant" "Dinner" (D 2) (D 50000)
                (D 100000) (D 18000) (D 118000) 1 noon None None.

Definition payment_1 : FolioPayment :=
  mkFolioPayment 1 1 (D 50000) "cash" "" 1 noon true.

Definition receipt_1 : Receipt :=
  mkReceipt 1 (Some 1%nat) "RCP-1-20240517" (D 50000) noon 1.

(** The stay of scenario C: booking 1 checked in, its folio open with one
    charge of 118,000 and one payment of 50,000 with its receipt. *)
Definition stay_db : DB :=
  mkDB [mkRoom 1 "101" occupied] [set_booking_status checked_in booking_1]
       [folio_1] [charge_1] [payment_1] [receipt_1] [vat18]
       (menu_items sample_db) [] [] [] [].

(** The same stay after check-out: the folio is closed. *)
Definition closed_db : DB :=
  mkDB [mkRoom 1 "101" vacant] [set_booking_status checked_out booking_1]
       [close_folio noon folio_1] [charge_1] [payment_1] [receipt_1] [vat18]
       (menu_items sample_db) [] [] [] [].

(** The stay of scenario C before its payment. *)
Definition charged_db : DB := set_receipts (set_payments stay_db []) [].

(** The payment of scenario C, [issue_receipt] left out. *)
Definition part_payment : PaymentData :=
  mkPaymentData 1 (D 50000) "cash" None None.

(** A payment and a charge for folio 1. *)
Definition late_payment : PaymentData :=
  mkPaymentData 1 (D 68000) "cash" None (Some (JBool false)).

Definition late_charge : ChargeData :=
  mkChargeData 1 "bar" "Minibar" (D 1) (D 5000) None.

(** Scenario D: two beers and a juice from the bar, posted to room. *)
Definition bar_order : OrderCreateData :=
  mkOrderCreateData "bar" (Some PAYMENT_POST_TO_ROOM) (Some 1%nat) None
    [mkOrderRow 1 (Some 2%nat) None; mkOrderRow 2 None None].

(** An update of a booking that writes its status only. *)
Definition reset_to_pending : BookingUpdateData :=
  mkBookingUpdateData None None None None None None (Some pending) None.

(** A charge of the bar, posted a week before [noon]. *)
Definition bar_charge : FolioCharge :=
  mkFolioCharge 2 1 "bar" "Cocktails" (D 1) (D 5000)
                (D 5000) (D 900) (D 5900) 1
                (mkDateTime (mkDate 2024 5 10) 720) None None.

(** [stay_db] with one more charge, of the bar. *)
Definition stay_db_bar : DB :=
  set_charges stay_db (charges stay_db ++ [bar_charge]).

(** * More of the code *)

(** ** core.models and core.permissions, continued *)

(** [User.get_all_permission_codes]: the set of the codes of the role. *)
Definition get_all_permission_codes (u : User) : gset string :=
  match role u with
  | None => ∅
  | Some permissions => list_to_set permissions
  end.

(** [permissions.SAFE_METHODS]. *)
Definition SAFE_METHODS : list string := ["GET"; "HEAD"; "OPTIONS"].

(** [HasPermissionOrReadOnly.has_permission]; [method] is [request.method]. *)
Definition has_permission_or_read_only (u : User) (method : string)
    (permission_code : option string) : bool :=
  if sector_in method SAFE_METHODS then is_authenticated u
  else has_permission u permission_code.

(** ** hotel.views: the list of bookings and the QR self check-in *)

(** [BookingList.get_queryset]: the bookings, newest first, or none of them
    for a department other than rooms and front office. *)
Definition BookingList_get_queryset (db : DB) (user : User) : list Booking :=
  let qs := rev (bookings db) in
  match department user with
  | Some code =>
      if negb (is_manager user) && negb (sector_in code ["rooms"; "front_office"])
      then []
      else qs
  | None => qs
  end.

(** [Booking.objects.get(qr_token=token)]. *)
Definition get_booking_by_token (db : DB) (token : string) : option Booking :=
  find (fun b => bool_decide (qr_token b = Some token)) (bookings db).

(** The two bodies of [booking_qr]. *)
Inductive QRBody :=
| QRBooking (booking : Booking)
| QRAlreadyCheckedIn (booking : Booking).

(** [booking_qr(request, token)], open to anyone ([AllowAny]). *)
Definition booking_qr (db : DB) (token : string) : Response QRBody :=
  match get_booking_by_token db token with
  | None => HTTP_404 "Invalid or expired link"
  | Some booking =>
      match qr_approved_at booking with
      | Some _ => HTTP_200 (QRAlreadyCheckedIn booking)
      | None => HTTP_200 (QRBooking booking)
      end
  end.

(** [class Guest]. *)
Record Guest := mkGuest {
  guest_id : nat;
  full_name : string;
  email : string;
  phone : string;
  id_type : string;
  id_number : string;
  nationality : string;
  address : string
}.

(** The form of [qr_submit]: each of the six fields the view copies, when
    it is in [request.data]. *)
Record QRForm := mkQRForm {
  form_full_name : option string;
  form_email : option string;
  form_phone : option string;
  form_id_type : option string;
  form_id_number : option string;
  form_nationality : option string
}.

(** The [for field in [...]: if field in request.data: setattr(...)] loop. *)
Definition apply_qr_form (form : QRForm) (g : Guest) : Guest :=
  mkGuest (guest_id g)
          (default (full_name g) (form_full_name form))
          (default (email g) (form_email form))
          (default (phone g) (form_phone form))
          (default (id_type g) (form_id_type form))
          (default (id_number g) (form_id_number form))
          (default (nationality g) (form_nationality form))
          (address g).

Definition set_qr_submitted_at (t : DateTime) (b : Booking) : Booking :=
  mkBooking (booking_id b) (guest b) (room b) (room_type b) (check_in_date b)
            (check_out_date b) (source b) (booking_status b)
            (special_requests b) (qr_token b) (Some t) (qr_approved_at b).

Definition set_qr_approved_at (t : DateTime) (b : Booking) : Booking :=
  mkBooking (booking_id b) (guest b) (room b) (room_type b) (check_in_date b)
            (check_out_date b) (source b) (booking_status b)
            (special_requests b) (qr_token b) (qr_submitted_at b) (Some t).

(** [qr_submit(request, token)].  The view names no permission classes, so
    the [DEFAULT_PERMISSION_CLASSES] of the settings, [IsAuthenticated],
    apply.  The guests are a table of their own, beside the database. *)
Definition qr_submit (db : DB) (guests : list Guest) (user : User)
    (token : string) (form : QRForm) (now : DateTime)
    : DB * list Guest * Response string :=
  if negb (is_authenticated user) then (db, guests, HTTP_401)
  else
  match get_booking_by_token db token with
  | None => (db, guests, HTTP_404 "Invalid or expired link")
  | Some booking =>
  match qr_submitted_at booking with
  | Some _ => (db, guests, HTTP_400 "Already submitted")
  | None =>
  match find (fun g => (guest_id g =? guest booking)%nat) guests with
  | None => (db, guests, HTTP_500 "Guest.DoesNotExist")
  | Some g =>
      let guests :=
        update_where guest_id (guest_id g) (fun _ => apply_qr_form form g)
                     guests in
      let db := set_bookings db
        (update_where booking_id (booking_id booking)
                      (set_qr_submitted_at now) (bookings db)) in
      (db, guests, HTTP_200 "submitted")
  end
  end
  end.

(** [qr_approve(request, pk)]. *)
Definition qr_approve (db : DB) (user : User) (pk : nat) (now : DateTime)
    : DB * Response string :=
  match permission_classes user None with
  | Some denied => (db, denied)
  | None =>
  if negb (has_perm_code user "create_booking") && negb (is_superuser user)
  then (db, HTTP_403 "Permission denied")
  else
  match get_booking db pk with
  | None => (db, HTTP_404 "Not found")
  | Some booking =>
      (set_bookings db
         (update_where booking_id (booking_id booking)
                       (set_qr_approved_at now) (bookings db)),
       HTTP_200 "approved")
  end
  end.

(** ** pos.views: the list of orders and the kitchen *)

(** [OrderListCreate.get_queryset]: the orders, newest first, of the actor's
    department when the actor is no manager and has one. *)
Definition OrderList_get_queryset (db : DB) (user : User) : list Order :=
  let qs := rev (orders db) in
  match department user with
  | Some code =>
      if negb (is_manager user)
      then filter (fun o => String.eqb (order_sector o) code) qs
      else qs
  | None => qs
  end.

(** The choices of [OrderStatusUpdateSerializer.status]. *)
Definition parse_order_status (s : string) : option OrderStatus :=
  if String.eqb s "new" then Some STATUS_NEW
  else if String.eqb s "preparing" then Some STATUS_PREPARING
  else if String.eqb s "ready" then Some STATUS_READY
  else if String.eqb s "served" then Some STATUS_SERVED
  else if String.eqb s "cancelled" then Some STATUS_CANCELLED
  else None.

Definition set_order_status (s : OrderStatus) (o : Order) : Order :=
  mkOrder (order_id o) (order_sector o) s (payment_intent o) (order_folio o)
          (table_or_room o) (created_by o) (completed_at o)
          (total_before_tax o) (total_tax o) (total_amount o).

(** The view [order_status(request, pk)] (the name is taken by the field of
    [Order]); [status] is [request.data.get('status')].  The serializer is
    built with [partial=True], so a body without status is valid and
    [validated_data['status']] raises [KeyError]. *)
Definition order_status_view (db : DB) (user : User) (pk : nat)
    (status : option string) : DB * Response Order :=
  match permission_classes user None with
  | Some denied => (db, denied)
  | None =>
  if negb (has_perm_code user "update_pos_order") && negb (is_superuser user)
  then (db, HTTP_403 "Permission denied")
  else
  match find (fun o => (order_id o =? pk)%nat) (orders db) with
  | None => (db, HTTP_404 "Not found")
  | Some order =>
  match status with
  | None => (db, HTTP_500 "KeyError")
  | Some s =>
  match parse_order_status s with
  | None => (db, ValidationError)
  | Some new_status =>
      (set_orders db
         (update_where order_id (order_id order) (set_order_status new_status)
                       (orders db)),
       HTTP_200 (set_order_status new_status order))
  end
  end
  end
  end.

(** [status__in=[Order.STATUS_NEW, Order.STATUS_PREPARING, Order.STATUS_READY]]. *)
Definition kitchen_status (s : OrderStatus) : bool :=
  match s with
  | STATUS_NEW | STATUS_PREPARING | STATUS_READY => true
  | STATUS_SERVED | STATUS_CANCELLED => false
  end.

(** [KitchenOrderList.get_queryset]: the orders not yet served, oldest
    first. *)
Definition KitchenOrderList_get_queryset (db : DB) : list Order :=
  filter (fun o => kitchen_status (order_status o)) (orders db).

(** ** finance.views *)

(** [ExpenseListCreate.get_queryset]: the expenses, newest first, of the
    actor's department when the actor is no manager and has one. *)
Definition ExpenseList_get_queryset (db : DB) (user : User) : list Expense :=
  let qs := rev (expenses db) in
  match department user with
  | Some code =>
      if negb (is_manager user)
      then filter (fun e => String.eqb (expense_sector e) code) qs
      else qs
  | None => qs
  end.

(** ** reports.views: the exports *)

(** A queryset that remembers whether a slice was taken of it: Django
    refuses to filter it afterwards. *)
Record QuerySet (A : Type) := mkQuerySet { rows : list A; is_sliced : bool }.

Arguments mkQuerySet {A} rows is_sliced.
Arguments rows {A} q.
Arguments is_sliced {A} q.

(** [qs[:n]]. *)
Definition qs_slice {A} (n : nat) (q : QuerySet A) : QuerySet A :=
  mkQuerySet (take n (rows q)) true.

(** [qs.filter(...)]. *)
Definition qs_filter {A} (p : A -> bool) (q : QuerySet A) : Exc (QuerySet A) :=
  if is_sliced q
  then Raise "Cannot filter a query once a slice has been taken."
  else Return (mkQuerySet (filter (fun x => p x) (rows q)) false).

(** A line of the CSV export, before its cells are printed. *)
Record CsvRow := mkCsvRow {
  csv_id : nat;
  csv_sector : string;
  csv_description : string;
  csv_amount : Decimal;
  csv_posted_at : DateTime;
  csv_booking_id : option nat
}.

(** [export_csv(request)]: the body is the lines after the header. *)
Definition export_csv (db : DB) (user : User) : Response (list CsvRow) :=
  if negb (is_authenticated user) then HTTP_401
  else
  if negb (has_perm_code user "view_reports") && negb (is_superuser user)
  then HTTP_403 "Permission denied"
  else
  let qs := qs_slice 2000 (mkQuerySet (rev (charges db)) false) in
  let qs :=
    match department user with
    | Some code =>
        if negb (is_manager user)
        then qs_filter (fun c => String.eqb (charge_sector c) code) qs
        else Return qs
    | None => Return qs
    end in
  match qs with
  | Raise e => HTTP_500 e
  | Return qs =>
      HTTP_200
        (map (fun c =>
                mkCsvRow (charge_id c) (charge_sector c) (description c)
                         (amount_after_tax c) (posted_at c)
                         (folio_booking <$> get_folio db (charge_folio c)))
             (rows qs))
  end.

(** The two blocks of [tax_report]. *)
Record TaxTotals := mkTaxTotals {
  report_total_before : option Decimal;
  report_total_tax : option Decimal;
  report_total_after : option Decimal
}.

(** [tax_report(request)]: the folio charges, then the completed orders. *)
Definition tax_report (db : DB) (user : User) : Response (TaxTotals * TaxTotals) :=
  if negb (is_authenticated user) then HTTP_401
  else
  if negb (has_perm_code user "view_reports") && negb (is_superuser user)
  then HTTP_403 "Permission denied"
  else
  let qc :=
    mkTaxTotals (Sum (map amount_before_tax (charges db)))
                (Sum (map tax_amount (charges db)))
                (Sum (map amount_after_tax (charges db))) in
  let completed_orders := filter (fun o => completed (fun _ => true) o) (orders db) in
  let qo :=
    mkTaxTotals (Sum (map total_before_tax completed_orders))
                (Sum (map total_tax completed_orders))
                (Sum (map total_amount completed_orders)) in
  HTTP_200 (qc, qo).

(** ** Vocabulary and data of the further properties *)

(** The response is a refusal: not authenticated, or not permitted. *)
Definition refused {A} (r : Response A) : Prop :=
  r = HTTP_401 \/ exists detail, r = HTTP_403 detail.

(** The actor holds no permission [code] and is no superuser. *)
Definition lacks (user : User) (code : string) : Prop :=
  has_perm_code user code = false /\ is_superuser user = false.

(** The tourism levy of the seed: 1% exclusive, on rooms only. *)
Definition tourism_levy : Tax :=
  mkTax "Tourism Levy" "TOURISM" (D 1) exclusive ["rooms"] true.

(** An authenticated actor without a role. *)
Definition newcomer : User := mkUser 3 true false false None None.

(** A cook: may update orders, nothing else. *)
Definition cook : User :=
  mkUser 4 true false false (Some ["update_pos_order"]) (Some "restaurant").

(** A payment larger than anything owed. *)
Definition deposit : PaymentData :=
  mkPaymentData 1 (D 500000) "mpesa" (Some "MP-77") (Some (JBool false)).

(** Every row of the order names an item of the menu. *)
Definition items_on_menu (db : DB) (items_data : list OrderRow) : Prop :=
  Forall (fun row => is_Some (get_menu_item db (row_menu_item_id row)))
         items_data.

(** The line total of a row at the price of the catalog: price times
    quantity, one when the row gives none. *)
Definition row_line_total (db : DB) (row : OrderRow) : Decimal :=
  match get_menu_item db (row_menu_item_id row) with
  | Some mi => price mi * D (Z.of_nat (default 1%nat (row_quantity row)))
  | None => 0
  end.

(** The pre-tax total of an order: the sum of its line totals. *)
Definition order_pre_tax (db : DB) (data : OrderCreateData) : Decimal :=
  total (map (row_line_total db) (data_items data)).

(** The folio an order is linked to: the one of its folio id, when the
    order is posted to room and the id is not zero. *)
Definition resolved_folio (db : DB) (data : OrderCreateData) : option Folio :=
  match data_folio_id data with
  | Some pk =>
      if negb (pk =? 0)%nat
         && payment_intent_eqb
              (default PAYMENT_PAY_NOW (data_payment_intent data))
              PAYMENT_POST_TO_ROOM
      then get_folio db pk else None
  | None => None
  end.

(** The order row an accepted request leaves. *)
Definition placed_order (db : DB) (user : User) (data : OrderCreateData)
    (completed : option DateTime) : Order :=
  let pre := order_pre_tax db data in
  let tax := spec_tax_amount (taxes db) pre (data_order_sector data) in
  mkOrder (next_id (map order_id (orders db))) (data_order_sector data)
          STATUS_NEW (default PAYMENT_PAY_NOW (data_payment_intent data))
          (folio_id <$> resolved_folio db data)
          (default "" (data_table_or_room data)) (user_id user) completed
          pre tax (pre + tax).

(** The order item written for a row: of this order, at the price of the
    catalog. *)
Definition item_of_row (db : DB) (order_pk : nat) (row : OrderRow)
    (item : OrderItem) : Prop :=
  item_order item = order_pk
  /\ item_quantity item = default 1%nat (row_quantity row)
  /\ Some (item_unit_price item) = price <$> get_menu_item db (row_menu_item_id row)
  /\ line_total item = row_line_total db row.

(** An order whose second row names no item of the menu. *)
Definition ghost_order : OrderCreateData :=
  mkOrderCreateData "bar" (Some PAYMENT_POST_TO_ROOM) (Some 1%nat) None
    [mkOrderRow 1 (Some 1%nat) None; mkOrderRow 99 None None].

(** An order paid at the counter that still names folio 1. *)
Definition counter_order : OrderCreateData :=
  mkOrderCreateData "restaurant" None (Some 1%nat) (Some "T4")
    [mkOrderRow 2 (Some 3%nat) None].

(** An order posted to the room of a folio that is not on file. *)
Definition lost_room_order : OrderCreateData :=
  mkOrderCreateData "bar" (Some PAYMENT_POST_TO_ROOM) (Some 42%nat) None
    [mkOrderRow 1 None None].

(** [Order.STATUS_NEW] and the other constants: the text of a status. *)
Definition order_status_value (s : OrderStatus) : string :=
  match s with
  | STATUS_NEW => "new"
  | STATUS_PREPARING => "preparing"
  | STATUS_READY => "ready"
  | STATUS_SERVED => "served"
  | STATUS_CANCELLED => "cancelled"
  end.

(** [Order.objects.get(pk=pk)]. *)
Definition get_order (db : DB) (pk : nat) : option Order :=
  find (fun o => (order_id o =? pk)%nat) (orders db).

(** A served order of the bar, completed at [noon], and a database that
    holds it. *)
Definition served_order : Order :=
  mkOrder 1 "bar" STATUS_SERVED PAYMENT_PAY_NOW None "T4" 2 (Some noon)
          (D 4000) (D 720) (D 4720).

Definition served_db : DB := set_orders stay_db [served_order].

(** A booking of room 101 for June. *)
Definition june_booking : BookingCreateData :=
  mkBookingCreateData 1 1 1 (mkDate 2024 6 1) (mkDate 2024 6 3) None None.

(** The guest of booking 1 and the form the guest sends. *)
Definition guest_1 : Guest := mkGuest 1 "Asha" "" "" "" "" "" "".

Definition guest_form : QRForm :=
  mkQRForm None None (Some "0712") (Some "passport") (Some "TZ-1") None.

(** A bartender who may look at bookings. *)
Definition bartender : User :=
  mkUser 5 true false false (Some ["view_bookings"]) (Some "bar").

(** The response is a success: 200 or 201. *)
Definition succeeded {A} (r : Response A) : bool :=
  match r with
  | HTTP_200 _ | HTTP_201 _ => true
  | _ => false
  end.

(** The amounts of every charge and of every order add up: the post-tax
    amount is the pre-tax amount plus the tax. *)
Definition totals_add_up (db : DB) : Prop :=
  Forall (fun c => amount_after_tax c = amount_before_tax c + tax_amount c)
         (charges db)
  /\ Forall (fun o => total_amount o = total_before_tax o + total_tax o)
            (orders db).

(** A block of the tax report adds up: its three sums are all there with
    the post-tax sum the pre-tax sum plus the tax, or all missing. *)
Definition report_adds_up (r : TaxTotals) : Prop :=
  match report_total_before r, report_total_tax r, report_total_after r with
  | Some before, Some tax, Some after => after = before + tax
  | None, None, None => True
  | _, _, _ => False
  end.

(** The actor is no manager and belongs to no department. *)
Definition unassigned (user : User) : Prop :=
  is_manager user = false /\ department user = None.

(** A manager with every report permission, and an accountant without
    department. *)
Definition manager : User :=
  mkUser 6 true false true (Some ["view_reports"; "view_expenses"]) (Some "bar").

Definition accountant : User :=
  mkUser 7 true false false (Some ["view_reports"; "view_expenses"]) None.

(** A second booking of room 101, for the same nights, and the database
    that holds both. *)
Definition booking_2 : Booking :=
  mkBooking 2 2 1 1 (mkDate 2024 5 17) (mkDate 2024 5 18) online confirmed ""
            (Some "token-2") None None.

Definition double_booked_db : DB := set_bookings sample_db [booking_1; booking_2].

(** A front-desk actor who may check in and check out. *)
Definition front_desk : User :=
  mkUser 8 true false false (Some ["create_booking"; "check_out_booking"])
         (Some "front_office").

(** * Properties *)

(** ** Decimals *)

Lemma fold_left_Qcplus (xs : list Decimal) (a : Decimal) :
  fold_left Qcplus xs a = a + total xs.
Proof.
  revert a. induction xs as [|x xs IH]; intros a; simpl.
  - ring.
  - rewrite IH. ring.
Qed.

Lemma decimal_truthy_false (d : Decimal) : decimal_truthy d = false -> d = 0.
Proof.
  unfold decimal_truthy. intros H. apply negb_false_iff in H.
  now apply Qc_eq_bool_correct.
Qed.

(** [Sum(...) or Decimal('0')] is the plain sum of the column. *)
Lemma or_zero_Sum (xs : list Decimal) : or_zero (Sum xs) = total xs.
Proof.
  destruct xs as [|x xs]; simpl; [reflexivity|].
  rewrite fold_left_Qcplus.
  destruct (decimal_truthy (x + total xs)) eqn:E; [reflexivity|].
  symmetry. now apply decimal_truthy_false.
Qed.

(** ** The tax engine *)

Section TaxEngine.

Variables (amount : Decimal) (sector : string).

Lemma loop_body_contributing (acc : Decimal) (t : Tax) :
  is_active t = true ->
  HotelTax.loop_body amount sector acc t =
    if contributing sector t then acc + amount * (percentage t / hundred) else acc.
Proof.
  intros Ha. unfold HotelTax.loop_body, contributing, sector_applicable.
  rewrite Ha. destruct (sectors t) as [|s l]; simpl.
  - now destruct (tax_type t).
  - destruct (_ || _); simpl; reflexivity.
Qed.

Lemma contributing_active (t : Tax) :
  is_active t = false -> contributing sector t = false.
Proof. intros H. unfold contributing. now rewrite H. Qed.

Lemma hotel_loop_spec (taxes : list Tax) (acc : Decimal) :
  fold_left (HotelTax.loop_body amount sector) (active_taxes taxes) acc =
    acc + spec_tax_amount taxes amount sector.
Proof.
  unfold spec_tax_amount, active_taxes. revert acc.
  induction taxes as [|t taxes IH]; intros acc; simpl.
  - ring.
  - rewrite !filter_cons. destruct (is_active t) eqn:Ha.
    + rewrite decide_True by reflexivity. simpl.
      rewrite IH, loop_body_contributing by assumption.
      destruct (contributing sector t).
      * rewrite decide_True by reflexivity. simpl. ring.
      * rewrite decide_False by discriminate. reflexivity.
    + rewrite decide_False by discriminate.
      rewrite contributing_active by assumption.
      rewrite decide_False by discriminate. apply IH.
Qed.

Lemma pos_loop_hotel_loop (taxes : list Tax) (acc : Decimal) :
  PosTax._apply_taxes_loop amount sector taxes acc =
    fold_left (HotelTax.loop_body amount sector) taxes acc.
Proof.
  revert acc. induction taxes as [|t taxes IH]; intros acc; simpl;
    [reflexivity|].
  unfold HotelTax.loop_body at 2.
  destruct (list_truthy (sectors t) && negb (sector_in sector (sectors t)));
    [apply IH|].
  destruct (tax_type_eqb (tax_type t) exclusive); apply IH.
Qed.

Lemma create_tax_total_hotel_loop (taxes : list Tax) :
  create_tax_total taxes sector amount =
    fold_left (HotelTax.loop_body amount sector) (active_taxes taxes) 0.
Proof.
  unfold create_tax_total. generalize (active_taxes taxes) (0 : Decimal).
  intros l. induction l as [|t l IH]; intros acc; simpl; [reflexivity|].
  rewrite IH. f_equal. unfold HotelTax.loop_body.
  destruct (list_truthy (sectors t) && negb (sector_in sector (sectors t)));
    [reflexivity|].
  now destruct (tax_type t).
Qed.

End TaxEngine.

Lemma total_Permutation (xs ys : list Decimal) :
  xs ≡ₚ ys -> total xs = total ys.
Proof.
  induction 1 as [|x xs ys _ IH|x y xs|xs ys zs _ IH1 _ IH2]; simpl.
  - reflexivity.
  - now rewrite IH.
  - ring.
  - now rewrite IH1.
Qed.

Lemma apply_taxes_spec (taxes : list Tax) (pre : Decimal) (sector : string) :
  HotelTax.apply_taxes taxes pre sector =
    (spec_tax_amount taxes pre sector, pre + spec_tax_amount taxes pre sector).
Proof.
  unfold HotelTax.apply_taxes. rewrite hotel_loop_spec.
  f_equal; ring.
Qed.

(** The tax does not depend on the order in which the schedule is read. *)
Lemma apply_taxes_order_irrelevant (taxes taxes' : list Tax) (pre : Decimal)
    (sector : string) :
  taxes ≡ₚ taxes' ->
  HotelTax.apply_taxes taxes pre sector = HotelTax.apply_taxes taxes' pre sector.
Proof.
  intros Hperm. rewrite !apply_taxes_spec.
  assert (spec_tax_amount taxes pre sector = spec_tax_amount taxes' pre sector)
    as ->; [|reflexivity].
  unfold spec_tax_amount. apply total_Permutation.
  apply fmap_Permutation. now rewrite Hperm.
Qed.

(** C4: the tax engine returns, as tax amount, the sum over the active,
    sector-applicable, exclusive taxes of [preTaxAmount * percentage/100],
    and [preTaxAmount + taxAmount] as post-tax amount; an inclusive tax
    contributes nothing; with VAT 18% exclusive on all sectors, 100,000
    gives tax 18,000 and post-tax 118,000. *)
Theorem tax_engine_sum_of_exclusive_taxes :
  (forall taxes pre sector,
      HotelTax.apply_taxes taxes pre sector =
        (spec_tax_amount taxes pre sector,
         pre + spec_tax_amount taxes pre sector))
  /\ (forall t taxes pre sector,
        tax_type t = inclusive ->
        HotelTax.apply_taxes (t :: taxes) pre sector =
          HotelTax.apply_taxes taxes pre sector)
  /\ HotelTax.apply_taxes [vat18] (D 100000) "restaurant" = (D 18000, D 118000).
Proof.
  split; [exact apply_taxes_spec|]. split.
  - intros t taxes pre sector Hincl. rewrite !apply_taxes_spec.
    assert (spec_tax_amount (t :: taxes) pre sector
            = spec_tax_amount taxes pre sector) as ->; [|reflexivity].
    unfold spec_tax_amount. rewrite filter_cons.
    rewrite decide_False; [reflexivity|].
    unfold contributing. rewrite Hincl. simpl.
    rewrite andb_false_r. discriminate.
  - rewrite apply_taxes_spec. f_equal; decimal_eq.
Qed.

Lemma tax_engine_sum_of_exclusive_taxes_witness :
  HotelTax.apply_taxes
    [mkTax "Levy" "TL" (D 1) inclusive ["rooms"] true; vat18] (D 200) "rooms"
  = HotelTax.apply_taxes [vat18] (D 200) "rooms".
Proof.
  apply (proj1 (proj2 tax_engine_sum_of_exclusive_taxes)). reflexivity.
Defined.

Lemma create_tax_total_spec (taxes : list Tax) (amount : Decimal)
    (sector : string) :
  create_tax_total taxes sector amount = spec_tax_amount taxes amount sector.
Proof.
  rewrite create_tax_total_hotel_loop, hotel_loop_spec. ring.
Qed.

(** C10: for every schedule, amount and sector, the tax amount the hotel
    module computes for a direct folio charge equals the one computed by the
    POS module, both by [_apply_taxes] of its views and by the tax pass of
    [OrderCreateSerializer.create]. *)
Theorem tax_applied_identically_by_both_sources
    (taxes : list Tax) (amount : Decimal) (sector : string) :
  fst (HotelTax.apply_taxes taxes amount sector)
    = PosTax._apply_taxes taxes amount sector
  /\ fst (HotelTax.apply_taxes taxes amount sector)
    = create_tax_total taxes sector amount.
Proof.
  split.
  - unfold PosTax._apply_taxes. now rewrite pos_loop_hotel_loop.
  - now rewrite create_tax_total_hotel_loop.
Qed.

(** ** Rows and keys *)

Section Tables.

Context {A : Type} (key : A -> nat).

Lemma find_key (pk : nat) (rows : list A) (r : A) :
  find (fun r => (key r =? pk)%nat) rows = Some r -> key r = pk.
Proof.
  intros H. apply find_some in H as [_ H]. now apply Nat.eqb_eq in H.
Qed.

Lemma find_update_where (pk pk' : nat) (f : A -> A) (rows : list A) :
  (forall r, key (f r) = key r) ->
  find (fun r => (key r =? pk')%nat) (update_where key pk f rows) =
    (if (pk =? pk')%nat then f else id)
      <$> find (fun r => (key r =? pk')%nat) rows.
Proof.
  intros Hkey. induction rows as [|r rows IH]; simpl; [reflexivity|].
  destruct (key r =? pk)%nat eqn:E.
  - rewrite Hkey. destruct (key r =? pk')%nat eqn:E'; [|exact IH].
    apply Nat.eqb_eq in E, E'. subst pk.
    rewrite (proj2 (Nat.eqb_eq _ _) E'). reflexivity.
  - destruct (key r =? pk')%nat eqn:E'; [|exact IH].
    apply Nat.eqb_eq in E'. subst pk'. rewrite Nat.eqb_sym, E. reflexivity.
Qed.

Lemma next_id_fresh (rows : list A) (r : A) :
  In r rows -> key r <> next_id (map key rows).
Proof.
  intros Hin. unfold next_id.
  assert (key r <= foldr Nat.max 0 (map key rows))%nat; [|lia].
  induction rows as [|x rows IH]; [destruct Hin|].
  simpl. destruct Hin as [->|Hin]; [lia|]. specialize (IH Hin). lia.
Qed.

End Tables.

(** ** Check-in *)

Lemma authorized_function_view {A} (user : User) (code : string) :
  authorized user code ->
  @permission_classes A user None = None
  /\ negb (has_perm_code user code) && negb (is_superuser user) = false.
Proof.
  intros [Hauth Hperm]. unfold permission_classes, has_permission.
  rewrite Hauth. simpl. split.
  - now destruct (is_superuser user).
  - destruct Hperm as [-> | ->]; simpl; [reflexivity|apply andb_false_r].
Qed.

Lemma check_in_success (db : DB) (user : User) (pk : nat) (booking : Booking)
    (r : Room) :
  authorized user "create_booking" ->
  get_booking db pk = Some booking ->
  get_room db (room booking) = Some r ->
  booking_status booking = pending \/ booking_status booking = confirmed ->
  check_in db user pk =
    (checked_in_db db booking, HTTP_200 (checked_in_folio db booking)).
Proof.
  intros Hauth Hb Hr Hst. unfold check_in.
  destruct (authorized_function_view (A:=Folio) _ _ Hauth) as [-> ->].
  rewrite Hb.
  assert (negb (booking_status_eqb (booking_status booking) confirmed)
          && negb (booking_status_eqb (booking_status booking) pending) = false)
    as -> by (destruct Hst as [-> | ->]; reflexivity).
  unfold atomic, booking_room. simpl.
  unfold get_room in *. simpl. rewrite Hr. simpl.
  rewrite (find_key room_id _ _ _ Hr). reflexivity.
Qed.

Lemma check_in_invalid_state (db : DB) (user : User) (pk : nat)
    (booking : Booking) :
  authorized user "create_booking" ->
  get_booking db pk = Some booking ->
  booking_status booking <> pending ->
  booking_status booking <> confirmed ->
  check_in db user pk = (db, InvalidStateError).
Proof.
  intros Hauth Hb Hp Hc. unfold check_in.
  destruct (authorized_function_view (A:=Folio) _ _ Hauth) as [-> ->].
  rewrite Hb. destruct (booking_status booking); try congruence; reflexivity.
Qed.

Lemma get_booking_checked_in (db : DB) (pk : nat) (booking : Booking) :
  get_booking db pk = Some booking ->
  get_booking (checked_in_db db booking) pk =
    Some (set_booking_status checked_in booking).
Proof.
  intros Hb. unfold get_booking in *. simpl.
  rewrite find_update_where by reflexivity.
  rewrite Hb, (find_key booking_id _ _ _ Hb), Nat.eqb_refl. reflexivity.
Qed.

Lemma get_room_checked_in (db : DB) (booking : Booking) (r : Room) :
  get_room db (room booking) = Some r ->
  get_room (checked_in_db db booking) (room booking) =
    Some (set_room_status occupied r).
Proof.
  intros Hr. unfold get_room in *. simpl.
  rewrite find_update_where by reflexivity.
  rewrite Hr, Nat.eqb_refl. reflexivity.
Qed.

(** C2: check-in succeeds exactly when the booking is pending or confirmed;
    on success it creates a new open, primary folio bound to the booking,
    sets the room to occupied and the booking to checked_in, and a second
    check-in then fails with InvalidStateError and changes nothing. *)
Theorem check_in_transition (db : DB) (user : User) (pk : nat)
    (booking : Booking) (r : Room) :
  authorized user "create_booking" ->
  get_booking db pk = Some booking ->
  get_room db (room booking) = Some r ->
  let (db', response) := check_in db user pk in
  ((exists folio, response = HTTP_200 folio) <->
     (booking_status booking = pending \/ booking_status booking = confirmed))
  /\ (forall folio, response = HTTP_200 folio ->
        folio_status folio = open
        /\ is_primary folio = true
        /\ folio_booking folio = pk
        /\ folios db' = folios db ++ [folio]
        /\ ~ In (folio_id folio) (map folio_id (folios db))
        /\ room_status <$> get_room db' (room booking) = Some occupied
        /\ booking_status <$> get_booking db' pk = Some checked_in
        /\ check_in db' user pk = (db', InvalidStateError)).
Proof.
  intros Hauth Hb Hr.
  pose proof (find_key booking_id _ _ _ Hb) as Hpk. subst pk.
  destruct (booking_status booking) eqn:Hst.
  1,2: rewrite (check_in_success db user _ booking r) by auto; split;
    [ split; [auto|eauto] | intros folio [= <-]; simpl ].
  1,2: repeat split.
  1,5: intros Hin; apply in_map_iff in Hin as [f [Hid Hin]];
       now apply (next_id_fresh folio_id _ _ Hin).
  1,4: now rewrite (get_room_checked_in db booking r).
  1,3: now rewrite (get_booking_checked_in db _ booking).
  1,2: apply (check_in_invalid_state _ _ _ (set_booking_status checked_in booking));
       [assumption | now apply get_booking_checked_in | discriminate..].
  all: rewrite (check_in_invalid_state db user _ booking) by congruence;
    split; [|discriminate];
    split; [intros [folio Hf]; discriminate | intros [?|?]; discriminate].
Qed.

Lemma check_in_transition_witness :
  snd (check_in sample_db receptionist 1)
    = HTTP_200 (mkFolio 1 1 true open None)
  /\ check_in (fst (check_in sample_db receptionist 1)) receptionist 1
     = (fst (check_in sample_db receptionist 1), InvalidStateError).
Proof.
  pose proof (check_in_transition sample_db receptionist 1 booking_1 room_101)
    as H.
  destruct (check_in sample_db receptionist 1) as [db' response] eqn:E.
  destruct H as [_ H].
  - split; [reflexivity | left; reflexivity].
  - reflexivity.
  - reflexivity.
  - injection E as <- <-. split; [reflexivity|].
    apply (H _ eq_refl).
Defined.

(** ** Check-out *)

Lemma filter_update_where {A} (key : A -> nat) (pk : nat) (f : A -> A)
    (P : A -> bool) (rows : list A) :
  (forall r, P (f r) = P r) ->
  filter (fun r => P r) (update_where key pk f rows) =
    update_where key pk f (filter (fun r => P r) rows).
Proof.
  intros HP. unfold update_where.
  induction rows as [|r rows IH]; simpl; [reflexivity|].
  rewrite !filter_cons.
  assert (P (if (key r =? pk)%nat then f r else r) = P r) as HPr
    by (destruct (key r =? pk)%nat; [apply HP|reflexivity]).
  destruct (P r) eqn:E.
  - rewrite !decide_True by (rewrite ?HPr, ?E; exact I).
    simpl. now rewrite IH.
  - rewrite !decide_False by (rewrite ?HPr, ?E; exact id).
    exact IH.
Qed.

Lemma last_update_where {A} (key : A -> nat) (f : A -> A) (rows : list A)
    (x : A) :
  last rows = Some x ->
  last (update_where key (key x) f rows) = Some (f x).
Proof.
  intros H. unfold update_where.
  change (map ?g rows) with (g <$> rows).
  rewrite fmap_last, H. simpl. now rewrite Nat.eqb_refl.
Qed.

Lemma booking_folio_none (db : DB) (booking : Booking) :
  (forall f, In f (folios db) -> folio_booking f <> booking_id booking) ->
  booking_folio db booking = None.
Proof.
  intros H. unfold booking_folio. apply last_None.
  induction (folios db) as [|f l IH]; [reflexivity|].
  rewrite filter_cons, decide_False.
  - apply IH. intros f' Hin. apply H. now right.
  - intros Hf. apply andb_prop_elim in Hf as [Hf _].
    apply Is_true_eq_true, Nat.eqb_eq in Hf. apply (H f); [now left|assumption].
Qed.

Lemma check_out_success (db : DB) (user : User) (pk : nat) (now : DateTime)
    (booking : Booking) (r : Room) (folio : Folio) :
  authorized user "check_out_booking" ->
  get_booking db pk = Some booking ->
  get_room db (room booking) = Some r ->
  booking_folio db booking = Some folio ->
  folio_status folio = open ->
  check_out db user pk now =
    let db' := checked_out_db db booking folio now in
    let folio' := close_folio now folio in
    (db', HTTP_200 (folio', mkInvoice (total_charges db' folio')
                                       (total_payments db' folio')
                                       (balance db' folio'))).
Proof.
  intros Hauth Hb Hr Hf Hopen. unfold check_out.
  destruct (authorized_function_view (A:=Folio * Invoice) _ _ Hauth) as [-> ->].
  rewrite Hb, Hf, Hopen. simpl.
  unfold atomic, booking_room, get_room in *. simpl. rewrite Hr. simpl.
  rewrite (find_key room_id _ _ _ Hr). reflexivity.
Qed.



(** ** Posting to a closed folio *)

Lemma post_charge_closed_folio (db : DB) (user : User) (data : ChargeData)
    (now : DateTime) (folio : Folio) :
  authorized user "post_charge" ->
  FolioChargePostSerializer db data = Some folio ->
  folio_status folio = closed ->
  post_charge db user data now = (db, FolioClosedError).
Proof.
  intros Hauth Hvalid Hclosed. unfold post_charge.
  destruct (authorized_function_view (A:=FolioCharge) _ _ Hauth) as [-> ->].
  rewrite Hvalid. unfold can_post_charges. now rewrite Hclosed.
Qed.

Lemma post_charge_never_changes_other_tables (db : DB) (user : User)
    (data : ChargeData) (now : DateTime) :
  let db' := fst (post_charge db user data now) in
  payments db' = payments db /\ folios db' = folios db
  /\ receipts db' = receipts db /\ bookings db' = bookings db.
Proof.
  unfold post_charge.
  destruct (permission_classes user None); [easy|].
  destruct (_ && _); [easy|].
  destruct (FolioChargePostSerializer db data); [|easy].
  destruct (negb _); [easy|].
  destruct (HotelTax.apply_taxes _ _ _). easy.
Qed.

(** [post_payment] never looks at the status of the folio: whatever it is,
    an authorised, valid request that asks for no receipt appends the
    payment. *)
Lemma post_payment_ignores_folio_status (db : DB) (user : User)
    (data : PaymentData) (now : DateTime) (folio : Folio) :
  authorized user "post_payment" ->
  FolioPaymentPostSerializer db data = Some folio ->
  data_issue_receipt data = Some (JBool false) ->
  exists payment,
    post_payment db user data now
      = (set_payments db (payments db ++ [payment]), HTTP_201 payment)
    /\ payment_folio payment = folio_id folio
    /\ amount payment = data_amount data.
Proof.
  intros Hauth Hvalid Hno. unfold post_payment.
  destruct (authorized_function_view (A:=FolioPayment) _ _ Hauth) as [-> ->].
  rewrite Hvalid, Hno. simpl. eexists. split; [reflexivity|]. split; reflexivity.
Qed.

(** C1, at the closed folio of [closed_db]: a charge is refused with
    FolioClosedError and changes nothing, but a payment is accepted with
    201, appended to the ledger of the closed folio, and changes its
    totals. *)
Theorem closed_folio_accepts_payment :
  folio_status <$> get_folio closed_db 1 = Some closed
  /\ post_charge closed_db receptionist late_charge noon
     = (closed_db, FolioClosedError)
  /\ let (db', response) := post_payment closed_db receptionist late_payment noon in
     response = HTTP_201 (mkFolioPayment 2 1 (D 68000) "cash" "" 1 noon false)
     /\ response <> FolioClosedError
     /\ payments db' =
          payments closed_db ++ [mkFolioPayment 2 1 (D 68000) "cash" "" 1 noon false]
     /\ total_payments closed_db (close_folio noon folio_1) = D 50000
     /\ total_payments db' (close_folio noon folio_1) = D 118000.
Proof.
  split; [reflexivity|]. split; [reflexivity|].
  simpl. split; [reflexivity|]. split; [discriminate|]. split; [reflexivity|].
  split; decimal_eq.
Qed.

(** ** POS orders *)

Lemma permission_classes_denied {A} (user : User) (code : option string)
    (denied : Response A) :
  permission_classes user code = Some denied ->
  forall a, denied <> HTTP_201 a /\ denied <> HTTP_200 a.
Proof.
  unfold permission_classes. intros H a.
  destruct (negb (is_authenticated user)); [injection H as <-; easy|].
  destruct (negb (has_permission user code)); [injection H as <-; easy|].
  discriminate.
Qed.

(** The items loop writes order items only. *)
Lemma create_items_tables (order : Order) (items_data : list OrderRow)
    (db db' : DB) (total_before total_before' : Decimal) :
  create_items order items_data db total_before = Return (db', total_before') ->
  charges db' = charges db /\ orders db' = orders db
  /\ folios db' = folios db /\ taxes db' = taxes db
  /\ payments db' = payments db /\ receipts db' = receipts db.
Proof.
  revert db total_before.
  induction items_data as [|row rest IH]; intros db total_before H; simpl in H.
  - injection H as <- <-. easy.
  - destruct (get_menu_item db (row_menu_item_id row)); [|discriminate].
    apply IH in H. exact H.
Qed.

(** What [OrderCreateSerializer.create] returns when it returns. *)
Lemma OrderCreateSerializer_create_returns (db db' : DB) (user : User)
    (data : OrderCreateData) (order : Order) :
  OrderCreateSerializer_create db user data = Return (db', order) ->
  charges db' = charges db
  /\ folios db' = folios db
  /\ order_id order = next_id (map order_id (orders db))
  /\ order_sector order = data_order_sector data
  /\ payment_intent order = default PAYMENT_PAY_NOW (data_payment_intent data)
  /\ total_tax order =
       create_tax_total (taxes db) (order_sector order) (total_before_tax order)
  /\ total_amount order = total_before_tax order + total_tax order
  /\ (forall pk, order_folio order = Some pk ->
        payment_intent order = PAYMENT_POST_TO_ROOM
        /\ data_folio_id data = Some pk
        /\ exists folio, get_folio db pk = Some folio)
  /\ In order (orders db').
Proof.
  unfold OrderCreateSerializer_create. intros H.
  match type of H with
  | exc_bind (create_items ?o ?i ?d ?t) _ = _ =>
      destruct (create_items o i d t) as [[db1 total_before]|] eqn:E;
        [|discriminate]
  end.
  simpl in H. injection H as <- <-.
  apply create_items_tables in E as (Hc & Ho & Hf & Ht & _). simpl in *.
  rewrite Hc, Hf, Ht. do 7 (split; [reflexivity|]). split.
  - intros pk Hpk.
    destruct (data_folio_id data) as [pk'|]; [|discriminate].
    destruct (negb (pk' =? 0)%nat); [|discriminate].
    destruct (payment_intent_eqb _ PAYMENT_POST_TO_ROOM) eqn:Ei; [|discriminate].
    simpl in Hpk.
    destruct (get_folio db pk') as [folio|] eqn:Ef; [|discriminate].
    injection Hpk as <-.
    pose proof (find_key folio_id _ _ _ Ef) as Hk. rewrite Hk.
    split; [|split; [reflexivity|eauto]].
    now destruct (default PAYMENT_PAY_NOW (data_payment_intent data)).
  - rewrite Ho. unfold update_where. rewrite map_app. simpl.
    rewrite Nat.eqb_refl. apply in_or_app. right. now left.
Qed.

(** The outcomes of [OrderListCreate.create]: either nothing is written, or
    the order is saved, with one aggregate charge when it is resolved to a
    folio and none otherwise. *)
Lemma OrderListCreate_create_cases (db : DB) (user : User)
    (data : OrderCreateData) (now : DateTime) :
  let (db', response) := OrderListCreate_create db user data now in
  (db' = db /\ forall order, response <> HTTP_201 order)
  \/ exists order0 order,
       response = HTTP_201 order
       /\ order = set_completed_at now order0
       /\ In order (orders db')
       /\ folios db' = folios db
       /\ total_amount order = total_before_tax order + total_tax order
       /\ total_tax order =
            create_tax_total (taxes db) (order_sector order) (total_before_tax order)
       /\ match order_folio order with
          | Some pk =>
              charges db' = charges db ++ [order_charge db user now order0 pk]
              /\ payment_intent order = PAYMENT_POST_TO_ROOM
              /\ data_folio_id data = Some pk
              /\ exists folio, get_folio db pk = Some folio
          | None => charges db' = charges db
          end.
Proof.
  unfold OrderListCreate_create.
  destruct (permission_classes user (Some "create_pos_order")) as [denied|] eqn:Ep;
    [cbv beta iota; left; split;
       [reflexivity | intros o; apply (permission_classes_denied _ _ _ Ep o)]|].
  destruct (negb (OrderCreateSerializer_is_valid data));
    [cbv beta iota; left; split; [reflexivity|discriminate]|].
  unfold atomic.
  destruct (OrderCreateSerializer_create db user data) as [[db1 order0]|e] eqn:E;
    simpl; [|left; split; [reflexivity|discriminate]].
  apply OrderCreateSerializer_create_returns in E
    as (Hc & Hf & Hid & Hsec & Hint & Htax & Htot & Hfolio & Hin).
  right. eexists order0, _. split; [reflexivity|]. split; [reflexivity|].
  split; [|split; [|split; [exact Htot|split; [exact Htax|]]]].
  - assert (In (set_completed_at now order0)
              (update_where order_id (order_id order0) (set_completed_at now)
                            (orders db1))) as Hin'.
    { unfold update_where. apply in_map_iff. exists order0.
      now rewrite Nat.eqb_refl. }
    destruct (payment_intent order0), (order_folio order0); exact Hin'.
  - destruct (payment_intent order0), (order_folio order0); simpl; exact Hf.
  - simpl. destruct (order_folio order0) as [pk|] eqn:Eo.
    + destruct (Hfolio pk eq_refl) as (Hp & Hd & Hex). rewrite Hp. simpl.
      unfold order_charge. rewrite Hc. auto.
    + destruct (payment_intent order0); simpl; exact Hc.
Qed.

(** Nothing of a refused or failed order is kept: the order, its items and
    the charge are written together or not at all. *)
Lemma OrderListCreate_create_atomic (db : DB) (user : User)
    (data : OrderCreateData) (now : DateTime) :
  let (db', response) := OrderListCreate_create db user data now in
  (forall order, response <> HTTP_201 order) -> db' = db.
Proof.
  pose proof (OrderListCreate_create_cases db user data now) as H.
  destruct (OrderListCreate_create db user data now) as [db' response].
  intros Hfail. destruct H as [[H _]|(o0 & o & H & _)]; [exact H|].
  now destruct (Hfail o).
Qed.

(** C3, at the closed folio of [closed_db]: a post-to-room order naming the
    closed folio is accepted with 201, the order is saved and its aggregate
    charge of 11,800 is appended to the closed folio, whose total charges
    rise from 118,000 to 129,800. *)
Theorem pos_order_posts_to_closed_folio :
  folio_status <$> get_folio closed_db 1 = Some closed
  /\ let (db', response) := OrderListCreate_create closed_db waiter bar_order noon in
     exists order c,
       response = HTTP_201 order
       /\ In order (orders db')
       /\ payment_intent order = PAYMENT_POST_TO_ROOM
       /\ order_folio order = Some 1%nat
       /\ total_amount order = D 11800
       /\ charges db' = charges closed_db ++ [c]
       /\ charge_folio c = 1%nat
       /\ pos_order_id c = Some (order_id order)
       /\ amount_after_tax c = D 11800
       /\ total_charges closed_db (close_folio noon folio_1) = D 118000
       /\ total_charges db' (close_folio noon folio_1) = D 129800.
Proof.
  split; [reflexivity|].
  destruct (OrderListCreate_create closed_db waiter bar_order noon)
    as [db' response] eqn:E.
  vm_compute in E. injection E as <- <-.
  eexists _, _. split; [reflexivity|]. split; [left; reflexivity|].
  split; [reflexivity|]. split; [reflexivity|]. split; [decimal_eq|].
  split; [reflexivity|]. split; [reflexivity|]. split; [reflexivity|].
  split; [decimal_eq|]. split; decimal_eq.
Qed.

(** ** The amounts of a charge *)


(** The aggregate charge of a POS order is one unit priced at the order's
    post-tax total, tagged with the order. *)
Lemma pos_charge_is_aggregate (db : DB) (user : User) (now : DateTime)
    (data : OrderCreateData) :
  Forall charge_amounts_aggregate
    (new_charges db (fst (OrderListCreate_create db user data now))).
Proof.
  unfold new_charges.
  pose proof (OrderListCreate_create_cases db user data now) as H.
  destruct (OrderListCreate_create db user data now) as [db' response].
  simpl. destruct H as [[-> _]|(o0 & o & _ & -> & _ & _ & Htot & _ & H)].
  - now rewrite drop_all.
  - simpl in H. destruct (order_folio o0).
    + destruct H as (-> & _). rewrite drop_app_length.
      repeat constructor. exact Htot.
    + rewrite H. now rewrite drop_all.
Qed.



(** ** Payments and receipts *)

Lemma update_where_miss {A} (key : A -> nat) (pk : nat) (f : A -> A)
    (rows : list A) :
  (forall r, In r rows -> key r <> pk) -> update_where key pk f rows = rows.
Proof.
  intros H. unfold update_where. induction rows as [|r rows IH]; simpl;
    [reflexivity|].
  rewrite IH by (intros x Hx; apply H; now right).
  destruct (key r =? pk)%nat eqn:E; [|reflexivity].
  apply Nat.eqb_eq in E. destruct (H r); [now left|assumption].
Qed.

Lemma update_where_new_row {A} (key : A -> nat) (f : A -> A) (rows : list A)
    (r : A) :
  key r = next_id (map key rows) ->
  update_where key (key r) f (rows ++ [r]) = rows ++ [f r].
Proof.
  intros Hr. unfold update_where. rewrite map_app. simpl.
  rewrite Nat.eqb_refl. f_equal. apply update_where_miss.
  intros x Hx. rewrite Hr. now apply next_id_fresh.
Qed.

Lemma Receipt_create_free (db : DB) (r : Receipt) :
  (forall r', In r' (receipts db) ->
     receipt_number r' <> receipt_number r
     /\ folio_payment r' <> folio_payment r) ->
  Receipt_create db r = Return (set_receipts db (receipts db ++ [r])).
Proof.
  intros H. unfold Receipt_create.
  rewrite (proj2 (orb_false_iff _ _)); [reflexivity|].
  split; apply not_true_is_false; intros Hex;
    apply existsb_exists in Hex as [r' [Hin Hr']]; destruct (H r' Hin) as [H1 H2].
  - now apply String.eqb_eq in Hr'.
  - apply andb_prop in Hr' as [Hr' _]. now apply bool_decide_eq_true in Hr'.
Qed.

Lemma post_payment_with_receipt (db : DB) (user : User) (data : PaymentData)
    (now : DateTime) (folio : Folio) :
  authorized user "post_payment" ->
  FolioPaymentPostSerializer db data = Some folio ->
  receipt_slot_free db now ->
  json_truthy (default (JBool true) (data_issue_receipt data)) = true ->
  post_payment db user data now =
    (set_payments
       (set_receipts db (receipts db ++ [new_receipt db user data now]))
       (payments db ++ [new_payment db user data now folio true]),
     HTTP_201 (new_payment db user data now folio true)).
Proof.
  intros Hauth Hvalid Hfree Hissue. unfold post_payment.
  destruct (authorized_function_view (A:=FolioPayment) _ _ Hauth) as [-> ->].
  rewrite Hvalid, Hissue.
  rewrite Receipt_create_free by (intros r' Hin; exact (Hfree r' Hin)).
  simpl. f_equal. unfold set_payments. simpl. f_equal.
  apply (update_where_new_row payment_id (set_receipt_issued true)
           (payments db) (new_payment db user data now folio false)).
  reflexivity.
Qed.

Lemma post_payment_without_receipt (db : DB) (user : User) (data : PaymentData)
    (now : DateTime) (folio : Folio) :
  authorized user "post_payment" ->
  FolioPaymentPostSerializer db data = Some folio ->
  json_truthy (default (JBool true) (data_issue_receipt data)) = false ->
  post_payment db user data now =
    (set_payments db (payments db ++ [new_payment db user data now folio false]),
     HTTP_201 (new_payment db user data now folio false)).
Proof.
  intros Hauth Hvalid Hissue. unfold post_payment.
  destruct (authorized_function_view (A:=FolioPayment) _ _ Hauth) as [-> ->].
  now rewrite Hvalid, Hissue.
Qed.

(** C9: a payment posted with [issue_receipt] true, or left out, creates
    exactly one receipt, linked to the new payment and to no other, with the
    payment's amount, and the payment's receipt-issued flag is true; with
    [issue_receipt] false no receipt is created and the flag stays false. *)
Theorem post_payment_receipt (db : DB) (user : User) (data : PaymentData)
    (now : DateTime) (folio : Folio) :
  authorized user "post_payment" ->
  FolioPaymentPostSerializer db data = Some folio ->
  receipt_slot_free db now ->
  let (db', response) := post_payment db user data now in
  ((data_issue_receipt data = None \/ data_issue_receipt data = Some (JBool true)) ->
     exists payment receipt,
       response = HTTP_201 payment
       /\ payments db' = payments db ++ [payment]
       /\ amount payment = data_amount data
       /\ receipt_issued payment = true
       /\ receipts db' = receipts db ++ [receipt]
       /\ folio_payment receipt = Some (payment_id payment)
       /\ receipt_amount receipt = amount payment
       /\ (forall r, In r (receipts db') ->
             folio_payment r = Some (payment_id payment) -> r = receipt)
       /\ (forall p, In p (payments db') ->
             folio_payment receipt = Some (payment_id p) -> p = payment))
  /\ (data_issue_receipt data = Some (JBool false) ->
     exists payment,
       response = HTTP_201 payment
       /\ payments db' = payments db ++ [payment]
       /\ amount payment = data_amount data
       /\ receipt_issued payment = false
       /\ receipts db' = receipts db).
Proof.
  intros Hauth Hvalid Hfree.
  destruct (json_truthy (default (JBool true) (data_issue_receipt data))) eqn:Hissue.
  - rewrite (post_payment_with_receipt db user data now folio) by assumption.
    split; [|intros E; rewrite E in Hissue; discriminate].
    intros _. eexists _, _. split; [reflexivity|].
    do 6 (split; [reflexivity|]). split.
    + intros r Hin Hlink. apply in_app_or in Hin as [Hin|[<-|[]]];
        [|reflexivity].
      now destruct (Hfree r Hin) as [_ Hl].
    + intros p Hin [= Hid]. apply in_app_or in Hin as [Hin|[<-|[]]];
        [|reflexivity].
      symmetry in Hid. now apply (next_id_fresh payment_id) in Hin.
  - rewrite (post_payment_without_receipt db user data now folio) by assumption.
    split; [intros [E|E]; rewrite E in Hissue; discriminate|].
    intros _. eexists. repeat split; reflexivity.
Qed.

Lemma post_payment_receipt_witness :
  let (db', response) := post_payment charged_db receptionist part_payment noon in
  receipts db' = [receipt_1]
  /\ payments db' = [payment_1]
  /\ balance db' folio_1 = D 68000.
Proof.
  pose proof (post_payment_receipt charged_db receptionist part_payment noon folio_1)
    as H.
  destruct (post_payment charged_db receptionist part_payment noon)
    as [db' response] eqn:E.
  destruct H as [H _].
  - split; [reflexivity | left; reflexivity].
  - reflexivity.
  - intros r [].
  - destruct (H (or_introl eq_refl)) as (p & r & _ & Hp & _ & _ & Hr & _).
    vm_compute in E. injection E as <- <-.
    split; [reflexivity|]. split; [reflexivity|]. decimal_eq.
Defined.

(** ** Receipt numbers *)

Lemma append_snoc (d : string) (c : ascii) (s : string) :
  (d +:+ String c "") +:+ s = d +:+ String c s.
Proof.
  induction d as [|a d IH]; [reflexivity|].
  change (String a ((d +:+ String c "") +:+ s) = String a (d +:+ String c s)).
  now f_equal.
Qed.

Lemma no_dash_append (a b : string) :
  no_dash (a +:+ b) = no_dash a && no_dash b.
Proof.
  induction a as [|c a IH]; [reflexivity|].
  change (negb (Ascii.eqb c "-"%char) && no_dash (a +:+ b)
          = negb (Ascii.eqb c "-"%char) && no_dash a && no_dash b).
  now rewrite IH, andb_assoc.
Qed.

Lemma pretty_N_char_no_dash (x : N) :
  Ascii.eqb (pretty_N_char x) "-"%char = false.
Proof. unfold pretty_N_char. repeat case_match; reflexivity. Qed.

(** The digits [pretty_N_go] puts in front of its accumulator. *)
Lemma pretty_N_go_digits (x : N) (s : string) :
  exists d, pretty_N_go x s = d +:+ s /\ no_dash d = true.
Proof.
  revert s. induction (N.lt_wf_0 x) as [x _ IH]; intros s.
  destruct (decide (x = 0)%N) as [->|Hx].
  - exists "". now rewrite pretty_N_go_0.
  - rewrite pretty_N_go_step by lia.
    destruct (IH (x `div` 10)%N) with (s := String (pretty_N_char (x `mod` 10)) s)
      as (d & -> & Hd); [apply N.div_lt; lia|].
    exists (d +:+ String (pretty_N_char (x `mod` 10)) ""). split.
    + now rewrite append_snoc.
    + rewrite no_dash_append, Hd. simpl.
      now rewrite pretty_N_char_no_dash.
Qed.

Lemma append_empty (s : string) : s +:+ "" = s.
Proof.
  induction s as [|c s IH]; [reflexivity|].
  change (String c (s +:+ "") = String c s). now f_equal.
Qed.

Lemma pretty_nat_no_dash (n : nat) : no_dash (pretty n) = true.
Proof.
  unfold pretty, pretty_nat, pretty, pretty_N.
  destruct (decide (N.of_nat n = 0)%N); [reflexivity|].
  destruct (pretty_N_go_digits (N.of_nat n) "") as (d & -> & Hd).
  now rewrite append_empty.
Qed.

(** Two strings that agree up to their first separator. *)
Lemma dash_split (d1 d2 s1 s2 : string) :
  no_dash d1 = true -> no_dash d2 = true ->
  d1 +:+ String "-"%char s1 = d2 +:+ String "-"%char s2 -> d1 = d2.
Proof.
  revert d2. induction d1 as [|c1 d1 IH]; intros [|c2 d2]; simpl;
    intros H1 H2 E.
  - reflexivity.
  - injection E as <- _. discriminate H2.
  - injection E as -> _. discriminate H1.
  - injection E as -> E. f_equal.
    apply andb_prop in H1 as [_ H1]. apply andb_prop in H2 as [_ H2]. eauto.
Qed.

(** The receipt numbers of two payments differ. *)
Lemma receipt_number_inj (n m : nat) (s s' : string) :
  "RCP-" +:+ pretty n +:+ "-" +:+ s = "RCP-" +:+ pretty m +:+ "-" +:+ s' ->
  n = m.
Proof.
  intros E. simpl in E. injection E as E.
  apply dash_split in E; auto using pretty_nat_no_dash.
  now apply (inj pretty).
Qed.

Lemma receipts_follow_payments_slot_free (db : DB) (now : DateTime) :
  receipts_follow_payments db -> receipt_slot_free db now.
Proof.
  intros Hinv r Hr. destruct (Hinv r Hr) as (pk & d & Hp & Hlink & Hnum).
  apply in_map_iff in Hp as (p & <- & Hp).
  apply (next_id_fresh payment_id) in Hp. split.
  - rewrite Hnum. intros E. now apply receipt_number_inj in E.
  - rewrite Hlink. intros [= E]. contradiction.
Qed.

Lemma map_key_update_where {A} (key : A -> nat) (pk : nat) (f : A -> A)
    (rows : list A) :
  (forall r, key (f r) = key r) ->
  map key (update_where key pk f rows) = map key rows.
Proof.
  intros Hkey. unfold update_where. rewrite map_map. apply map_ext.
  intros r. destruct (key r =? pk)%nat; [apply Hkey|reflexivity].
Qed.

(** The views other than [post_payment] write neither payments nor
    receipts. *)
Lemma payments_written_only_by_post_payment (db : DB) (user : User)
    (now : DateTime) (request : Request) :
  (forall data, request <> PostPaymentRequest data) ->
  payments (serve db user now request) = payments db
  /\ receipts (serve db user now request) = receipts db.
Proof.
  intros Hreq. destruct request as [data token|pk data|pk|pk|data|data|data];
    simpl.
  - unfold BookingCreate.
    destruct (permission_classes user _); [easy|].
    destruct (get_room db (new_room data)); [|easy].
    unfold atomic. simpl. now destruct (existsb _ _).
  - unfold BookingDetail_update.
    destruct (permission_classes user _); [easy|].
    destruct (get_booking db pk); [|easy].
    now destruct (negb _).
  - unfold check_in.
    destruct (permission_classes user None); [easy|].
    destruct (_ && _); [easy|].
    destruct (get_booking db pk) as [booking|]; [|easy].
    destruct (_ && _); [easy|].
    unfold atomic, booking_room. simpl. now destruct (get_room _ _).
  - unfold check_out.
    destruct (permission_classes user None); [easy|].
    destruct (_ && _); [easy|].
    destruct (get_booking db pk) as [booking|]; [|easy].
    destruct (booking_folio db booking) as [folio|]; [|easy].
    destruct (folio_status_eqb _ _); [easy|].
    unfold atomic, booking_room. simpl. now destruct (get_room _ _).
  - destruct (post_charge_never_changes_other_tables db user data now)
      as (Hp & _ & Hr & _).
    now split.
  - now destruct (Hreq data).
  - unfold OrderListCreate_create.
    destruct (permission_classes user _); [easy|].
    destruct (negb _); [easy|].
    unfold atomic.
    destruct (OrderCreateSerializer_create db user data) as [[db1 o]|] eqn:E;
      [|easy].
    unfold OrderCreateSerializer_create in E.
    match type of E with
    | exc_bind (create_items ?o ?i ?d ?t) _ = _ =>
        destruct (create_items o i d t) as [[db2 tb]|] eqn:E';
          [|discriminate]
    end.
    apply create_items_tables in E' as (_ & _ & _ & _ & Hp & Hr).
    simpl in E. injection E as <- <-. simpl.
    destruct (default PAYMENT_PAY_NOW (data_payment_intent data)); simpl;
      [easy|].
    now destruct (_ <$> _).
Qed.

Lemma classic_request (request : Request) :
  (exists data, request = PostPaymentRequest data)
  \/ (forall data, request <> PostPaymentRequest data).
Proof. destruct request; eauto; right; discriminate. Qed.

Lemma post_payment_keeps_receipts_follow_payments (db : DB) (user : User)
    (data : PaymentData) (now : DateTime) :
  receipts_follow_payments db ->
  receipts_follow_payments (fst (post_payment db user data now)).
Proof.
  intros Hinv.
  assert (forall p, receipts_follow_payments
                      (set_payments db (payments db ++ [p]))) as Hgrow.
  { intros p r Hr. destruct (Hinv r Hr) as (pk & d & Hp & H).
    exists pk, d. split; [|exact H]. simpl. rewrite map_app.
    apply in_or_app. now left. }
  unfold post_payment.
  destruct (permission_classes user None); [exact Hinv|].
  destruct (_ && _); [exact Hinv|].
  destruct (FolioPaymentPostSerializer db data) as [folio|]; [|exact Hinv].
  destruct (json_truthy _); [|apply Hgrow].
  unfold Receipt_create. destruct (_ || _); [apply Hgrow|].
  intros r Hr. simpl in Hr. simpl.
  rewrite map_key_update_where by reflexivity. rewrite map_app.
  apply in_app_or in Hr as [Hr|[<-|[]]].
  - destruct (Hinv r Hr) as (pk & d & Hp & H). exists pk, d.
    split; [apply in_or_app; now left|exact H].
  - eexists _, (date now). split; [apply in_or_app; right; now left|].
    split; reflexivity.
Qed.

Lemma receipts_follow_payments_same_tables (db db' : DB) :
  payments db' = payments db -> receipts db' = receipts db ->
  receipts_follow_payments db -> receipts_follow_payments db'.
Proof.
  unfold receipts_follow_payments. intros -> ->. trivial.
Qed.

(** In every state the system reaches from a database whose receipts
    follow its payments, they still do; so there the receipt of a new payment
    never clashes with one on file. *)
Lemma receipts_follow_payments_reachable (db0 db : DB) :
  receipts_follow_payments db0 -> reachable db0 db ->
  receipts_follow_payments db.
Proof.
  intros H0 Hreach. induction Hreach as [|db user now request _ _ IH];
    [exact H0|].
  destruct (classic_request request) as [[data ->]|Hother].
  - now apply post_payment_keeps_receipts_follow_payments.
  - destruct (payments_written_only_by_post_payment db user now request Hother)
      as [Hp Hr].
    now apply (receipts_follow_payments_same_tables db).
Qed.

(** ** One primary folio per booking *)

(** Of the views, only [check_in] adds a folio row. *)
Lemma folio_rows_added_only_by_check_in (db : DB) (user : User) (now : DateTime) :
  (forall data, folios (fst (post_charge db user data now)) = folios db)
  /\ (forall data, folios (fst (post_payment db user data now)) = folios db)
  /\ (forall data token, folios (fst (BookingCreate db user data token)) = folios db)
  /\ (forall pk data, folios (fst (BookingDetail_update db user pk data)) = folios db)
  /\ (forall data, folios (fst (OrderListCreate_create db user data now)) = folios db)
  /\ (forall pk, length (folios (fst (check_out db user pk now))) = length (folios db)).
Proof.
  repeat split.
  - intros data. apply post_charge_never_changes_other_tables.
  - intros data. unfold post_payment.
    destruct (permission_classes user None); [reflexivity|].
    destruct (_ && _); [reflexivity|].
    destruct (FolioPaymentPostSerializer db data); [|reflexivity].
    destruct (json_truthy _); [|reflexivity].
    unfold Receipt_create. simpl. destruct (_ || _); reflexivity.
  - intros data token. unfold BookingCreate.
    destruct (permission_classes user _); [reflexivity|].
    destruct (get_room db (new_room data)); [|reflexivity].
    unfold atomic. simpl. destruct (existsb _ _); reflexivity.
  - intros pk data. unfold BookingDetail_update.
    destruct (permission_classes user _); [reflexivity|].
    destruct (get_booking db pk); [|reflexivity].
    destruct (negb _); reflexivity.
  - intros data.
    pose proof (OrderListCreate_create_cases db user data now) as H.
    destruct (OrderListCreate_create db user data now) as [db' response].
    simpl. destruct H as [[-> _]|(o0 & o & _ & _ & _ & H & _)];
      [reflexivity|exact H].
  - intros pk. unfold check_out.
    destruct (permission_classes user None); [reflexivity|].
    destruct (_ && _); [reflexivity|].
    destruct (get_booking db pk) as [booking|]; [|reflexivity].
    destruct (booking_folio db booking) as [folio|]; [|reflexivity].
    destruct (folio_status_eqb _ _); [reflexivity|].
    unfold atomic, booking_room. simpl.
    destruct (get_room _ _); simpl; [|reflexivity].
    unfold update_where. now rewrite length_map.
Qed.

Lemma in_update_where {A} (key : A -> nat) (pk : nat) (f : A -> A)
    (rows : list A) (x : A) :
  In x (update_where key pk f rows) ->
  exists r, In r rows /\ x = if (key r =? pk)%nat then f r else r.
Proof.
  unfold update_where. intros H. apply in_map_iff in H as (r & <- & Hr). eauto.
Qed.

Lemma folios_follow_check_in_same_tables (db db' : DB) :
  folios db' = folios db -> bookings db' = bookings db ->
  folios_follow_check_in db -> folios_follow_check_in db'.
Proof.
  unfold folios_follow_check_in, folios_of. intros -> ->. trivial.
Qed.

(** Rewriting booking rows in place, keys kept and no started stay taken
    back, keeps the folios following check-in. *)
Lemma folios_follow_check_in_bookings (db : DB) (pk : nat)
    (f : Booking -> Booking) :
  (forall b, booking_id (f b) = booking_id b) ->
  (forall b, stay_started (booking_status b) = true ->
             stay_started (booking_status (f b)) = true) ->
  folios_follow_check_in db ->
  folios_follow_check_in
    (set_bookings db (update_where booking_id pk f (bookings db))).
Proof.
  intros Hid Hst (Hfk & Hstarted & Hone). split; [|split]; simpl.
  - intros fo Hfo. rewrite map_key_update_where by exact Hid. now apply Hfk.
  - intros fo b Hfo Hb Heq.
    apply in_update_where in Hb as (b0 & Hb0 & ->).
    destruct (booking_id b0 =? pk)%nat.
    + apply Hst. apply (Hstarted fo b0); [assumption..|].
      now rewrite <- Hid.
    + now apply (Hstarted fo b0).
  - exact Hone.
Qed.

Lemma BookingCreate_keeps_folios_follow_check_in (db : DB) (user : User)
    (data : BookingCreateData) (token : string) :
  folios_follow_check_in db ->
  folios_follow_check_in (fst (BookingCreate db user data token)).
Proof.
  intros Hinv. unfold BookingCreate.
  destruct (permission_classes user _); [exact Hinv|].
  destruct (get_room db (new_room data)); [|exact Hinv].
  unfold atomic. simpl. destruct (existsb _ _); [exact Hinv|]. simpl.
  match goal with
  | |- folios_follow_check_in
         (set_bookings _ (update_where _ ?pk ?f (bookings db ++ [?b]))) =>
      apply (folios_follow_check_in_bookings
               (set_bookings db (bookings db ++ [b])) pk f);
        [reflexivity | trivial |]
  end.
  destruct Hinv as (Hfk & Hstarted & Hone). split; [|split]; simpl.
  - intros fo Hfo. rewrite map_app. apply in_or_app. left. now apply Hfk.
  - intros fo b Hfo Hb Heq. apply in_app_or in Hb as [Hb|[<-|[]]].
    + now apply (Hstarted fo b).
    + simpl in Heq. specialize (Hfk fo Hfo). rewrite <- Heq in Hfk.
      apply in_map_iff in Hfk as (b0 & Hb0 & Hin).
      now apply (next_id_fresh booking_id) in Hin.
  - exact Hone.
Qed.

Lemma BookingDetail_update_keeps_folios_follow_check_in (db : DB) (user : User)
    (pk : nat) (data : BookingUpdateData) :
  upd_status data = None ->
  folios_follow_check_in db ->
  folios_follow_check_in (fst (BookingDetail_update db user pk data)).
Proof.
  intros Hdata Hinv. unfold BookingDetail_update.
  destruct (permission_classes user _); [exact Hinv|].
  destruct (get_booking db pk) as [booking|]; [|exact Hinv].
  destruct (negb _); [exact Hinv|]. simpl.
  apply folios_follow_check_in_bookings; [reflexivity| |exact Hinv].
  intros b Hb. simpl. now rewrite Hdata.
Qed.

Lemma check_in_keeps_folios_follow_check_in (db : DB) (user : User) (pk : nat) :
  folios_follow_check_in db ->
  folios_follow_check_in (fst (check_in db user pk)).
Proof.
  intros Hinv. unfold check_in.
  destruct (permission_classes user None); [exact Hinv|].
  destruct (_ && _); [exact Hinv|].
  destruct (get_booking db pk) as [booking|] eqn:Hb; [|exact Hinv].
  destruct (negb (booking_status_eqb (booking_status booking) confirmed)
            && negb (booking_status_eqb (booking_status booking) pending))
    eqn:Hst; [exact Hinv|].
  unfold atomic, booking_room. simpl.
  destruct (get_room _ _) as [r|]; [|exact Hinv]. simpl.
  assert (stay_started (booking_status booking) = false) as Hnot
    by (destruct (booking_status booking); try reflexivity; discriminate).
  pose proof (find_some _ _ Hb) as [Hin _].
  destruct Hinv as (Hfk & Hstarted & Hone).
  assert (folios_of db (booking_id booking) = []) as Hnone.
  { unfold folios_of. destruct (filter _ _) as [|fo l] eqn:E; [reflexivity|].
    assert (fo ∈ filter (fun f => (folio_booking f =? booking_id booking)%nat)
                        (folios db)) as Hfo by (rewrite E; left).
    apply list_elem_of_filter in Hfo as [Hk Hfo].
    apply Is_true_eq_true, Nat.eqb_eq in Hk. apply list_elem_of_In in Hfo.
    rewrite (Hstarted fo booking Hfo Hin (eq_sym Hk)) in Hnot. discriminate. }
  split; [|split]; simpl.
  - intros fo Hfo. rewrite map_key_update_where by reflexivity.
    apply in_app_or in Hfo as [Hfo|[<-|[]]]; [now apply Hfk|].
    simpl. apply in_map_iff. eauto.
  - intros fo b Hfo Hin' Heq.
    apply in_update_where in Hin' as (b0 & Hb0 & ->).
    destruct (booking_id b0 =? booking_id booking)%nat eqn:Ek; [reflexivity|].
    apply in_app_or in Hfo as [Hfo|[<-|[]]]; [now apply (Hstarted fo b0)|].
    simpl in Heq. rewrite Heq, Nat.eqb_refl in Ek. discriminate.
  - intros pk'. unfold folios_of in *. simpl. rewrite filter_app, length_app.
    rewrite filter_cons, filter_nil. simpl.
    destruct (decide _) as [Hk|Hk]; simpl.
    + apply Is_true_eq_true, Nat.eqb_eq in Hk. subst pk'.
      rewrite Hnone. simpl. lia.
    + specialize (Hone pk'). lia.
Qed.

Lemma check_out_keeps_folios_follow_check_in (db : DB) (user : User) (pk : nat)
    (now : DateTime) :
  folios_follow_check_in db ->
  folios_follow_check_in (fst (check_out db user pk now)).
Proof.
  intros Hinv. unfold check_out.
  destruct (permission_classes user None); [exact Hinv|].
  destruct (_ && _); [exact Hinv|].
  destruct (get_booking db pk) as [booking|]; [|exact Hinv].
  destruct (booking_folio db booking) as [folio|]; [|exact Hinv].
  destruct (folio_status_eqb _ _); [exact Hinv|].
  unfold atomic, booking_room. simpl.
  destruct (get_room _ _) as [r|]; [|exact Hinv]. simpl.
  match goal with
  | |- folios_follow_check_in (set_bookings ?d (update_where _ ?k ?f _)) =>
      apply (folios_follow_check_in_bookings d k f); [reflexivity|reflexivity|]
  end.
  destruct Hinv as (Hfk & Hstarted & Hone). split; [|split]; simpl.
  - intros fo Hfo. apply in_update_where in Hfo as (f0 & Hf0 & ->).
    destruct (folio_id f0 =? _)%nat; exact (Hfk f0 Hf0).
  - intros fo b Hfo Hb Heq. apply in_update_where in Hfo as (f0 & Hf0 & ->).
    apply (Hstarted f0 b Hf0 Hb).
    now destruct (folio_id f0 =? _)%nat.
  - intros pk'. unfold folios_of in *. simpl.
    rewrite (filter_update_where folio_id _ _
               (fun f => (folio_booking f =? pk')%nat)) by reflexivity.
    unfold update_where. rewrite length_map. apply Hone.
Qed.

Lemma create_items_bookings (order : Order) (items_data : list OrderRow)
    (db db' : DB) (total_before total_before' : Decimal) :
  create_items order items_data db total_before = Return (db', total_before') ->
  bookings db' = bookings db.
Proof.
  revert db total_before.
  induction items_data as [|row rest IH]; intros db total_before H; simpl in H.
  - now injection H as <- <-.
  - destruct (get_menu_item db (row_menu_item_id row)); [|discriminate].
    now apply IH in H.
Qed.

Lemma ledger_views_keep_bookings (db : DB) (user : User) (now : DateTime) :
  (forall data, bookings (fst (post_charge db user data now)) = bookings db)
  /\ (forall data, bookings (fst (post_payment db user data now)) = bookings db)
  /\ (forall data,
        bookings (fst (OrderListCreate_create db user data now)) = bookings db).
Proof.
  split; [|split]; intros data.
  - apply post_charge_never_changes_other_tables.
  - unfold post_payment.
    destruct (permission_classes user None); [reflexivity|].
    destruct (_ && _); [reflexivity|].
    destruct (FolioPaymentPostSerializer db data); [|reflexivity].
    destruct (json_truthy _); [|reflexivity].
    unfold Receipt_create. simpl. destruct (_ || _); reflexivity.
  - unfold OrderListCreate_create.
    destruct (permission_classes user _); [reflexivity|].
    destruct (negb _); [reflexivity|].
    unfold atomic.
    destruct (OrderCreateSerializer_create db user data) as [[db1 o]|] eqn:E;
      [|reflexivity].
    unfold OrderCreateSerializer_create in E.
    match type of E with
    | exc_bind (create_items ?o ?i ?d ?t) _ = _ =>
        destruct (create_items o i d t) as [[db2 tb]|] eqn:E';
          [|discriminate]
    end.
    apply create_items_bookings in E' as Hitems.
 simpl in E. injection E as <- <-. simpl.
    destruct (default PAYMENT_PAY_NOW (data_payment_intent data)); simpl;
      [exact Hitems|].
    now destruct (_ <$> _).
Qed.

Lemma folios_follow_check_in_serve (db : DB) (user : User) (now : DateTime)
    (request : Request) :
  keeps_booking_status request ->
  folios_follow_check_in db ->
  folios_follow_check_in (serve db user now request).
Proof.
  intros Hreq Hinv.
  destruct (folio_rows_added_only_by_check_in db user now)
    as (Hf1 & Hf2 & _ & _ & Hf3 & _).
  destruct (ledger_views_keep_bookings db user now) as (Hb1 & Hb2 & Hb3).
  destruct request as [data token|pk data|pk|pk|data|data|data]; simpl.
  - now apply BookingCreate_keeps_folios_follow_check_in.
  - now apply BookingDetail_update_keeps_folios_follow_check_in.
  - now apply check_in_keeps_folios_follow_check_in.
  - now apply check_out_keeps_folios_follow_check_in.
  - now apply (folios_follow_check_in_same_tables db).
  - now apply (folios_follow_check_in_same_tables db).
  - now apply (folios_follow_check_in_same_tables db).
Qed.

Lemma primary_folios_of (db : DB) (pk : nat) :
  (length (primary_folios db pk) <= length (folios_of db pk))%nat.
Proof.
  unfold primary_folios, folios_of.
  induction (folios db) as [|f l IH]; [reflexivity|].
  rewrite !filter_cons.
  destruct (folio_booking f =? pk)%nat, (is_primary f); simpl; lia.
Qed.


(** C5, on [sample_db]: check-in of booking 1, an update of the booking that
    sets its status back to pending, and a second check-in reach a state in
    which the booking has two folios that are both primary and both open. *)
Theorem two_primary_folios_after_status_reset :
  let requests :=
    [CheckInRequest 1; BookingUpdateRequest 1 reset_to_pending; CheckInRequest 1] in
  let db :=
    fold_left (fun db request => serve db receptionist noon request)
              requests sample_db in
  reachable sample_db db
  /\ primary_folios sample_db 1 = []
  /\ primary_folios db 1 =
       [mkFolio 1 1 true open None; mkFolio 2 1 true open None].
Proof.
  split; [|split; reflexivity].
  unfold reachable. cbn [fold_left].
  repeat (apply reachable_serve; [exact I|]). apply reachable_start.
Qed.

(** ** The sales dashboard *)

(** C8, for the waiter of the restaurant, no manager: two databases that
    differ in one charge of the bar give the same total sales, sales of
    today and per-sector sales, but different sales of the month, 118,000
    against 123,900: the month's figure counts the charge of the bar. *)
Theorem dashboard_month_sales_count_other_sectors :
  is_manager waiter = false
  /\ department waiter = Some "restaurant"
  /\ charge_sector bar_charge = "bar"
  /\ exists d1 d2,
       dashboard stay_db waiter noon = HTTP_200 d1
       /\ dashboard stay_db_bar waiter noon = HTTP_200 d2
       /\ total_sales d1 = total_sales d2
       /\ sales_today d1 = sales_today d2
       /\ sales_per_sector d1 = sales_per_sector d2
       /\ sales_this_month d1 = D 118000
       /\ sales_this_month d2 = D 123900
       /\ sales_this_month d1 <> sales_this_month d2.
Proof.
  do 3 (split; [reflexivity|]).
  destruct (dashboard stay_db waiter noon) as [d1| | | | | |] eqn:E1;
    try (vm_compute in E1; discriminate E1).
  destruct (dashboard stay_db_bar waiter noon) as [d2| | | | | |] eqn:E2;
    try (vm_compute in E2; discriminate E2).
  exists d1, d2. split; [reflexivity|]. split; [reflexivity|].
  vm_compute in E1. vm_compute in E2.
  injection E1 as <-. injection E2 as <-.
  split; [decimal_eq|]. split; [decimal_eq|]. split; [reflexivity|].
  split; [decimal_eq|]. split; [decimal_eq|].
  intros H. apply (f_equal this) in H. discriminate H.
Qed.

Lemma filter_filter_comm {A} (P Q : A -> bool) (l : list A) :
  filter (fun x => P x) (filter (fun x => Q x) l)
  = filter (fun x => Q x) (filter (fun x => P x) l).
Proof.
  induction l as [|x l IH]; [reflexivity|].
  rewrite !filter_cons.
  destruct (P x) eqn:EP, (Q x) eqn:EQ; simpl;
    rewrite ?filter_cons, ?EP, ?EQ; simpl; now rewrite IH.
Qed.

(** The figures of the dashboard that are scoped: for an actor who is no
    manager and belongs to department [sec], total sales, sales of today
    and the per-sector list are the same on two databases whose charges and
    orders of sector [sec] are the same. *)
Lemma dashboard_scoped_figures (user : User) (sec : string) (db1 db2 : DB)
    (now : DateTime) (d1 d2 : Dashboard) :
  is_manager user = false ->
  department user = Some sec ->
  sector_rows_agree sec db1 db2 ->
  dashboard db1 user now = HTTP_200 d1 ->
  dashboard db2 user now = HTTP_200 d2 ->
  total_sales d1 = total_sales d2
  /\ sales_today d1 = sales_today d2
  /\ sales_per_sector d1 = sales_per_sector d2.
Proof.
  intros Hm Hd [Hc Ho] H1 H2. unfold dashboard, _sales_queryset in H1, H2.
  rewrite Hm, Hd in H1, H2.
  destruct (negb (is_authenticated user)); [discriminate|].
  destruct (_ && _); [discriminate|].
  cbn [negb] in H1, H2.
  injection H1 as <-. injection H2 as <-. cbn [total_sales sales_today sales_per_sector].
  split; [|split].
  - rewrite Hc.
    rewrite (filter_filter_comm (fun o => String.eqb (order_sector o) sec)
               (completed (fun _ => true)) (orders db1)).
    rewrite (filter_filter_comm (fun o => String.eqb (order_sector o) sec)
               (completed (fun _ => true)) (orders db2)).
    now rewrite Ho.
  - rewrite (filter_filter_comm (fun c => String.eqb (charge_sector c) sec)
               (fun c => on_date (date now) (posted_at c)) (charges db1)).
    rewrite (filter_filter_comm (fun c => String.eqb (charge_sector c) sec)
               (fun c => on_date (date now) (posted_at c)) (charges db2)).
    rewrite (filter_filter_comm (fun o => String.eqb (order_sector o) sec)
               (completed (on_date (date now))) (orders db1)).
    rewrite (filter_filter_comm (fun o => String.eqb (order_sector o) sec)
               (completed (on_date (date now))) (orders db2)).
    now rewrite Hc, Ho.
  - unfold SECTOR_LABELS. cbn [fold_left andb negb].
    repeat match goal with
    | |- context [String.eqb sec ?code] =>
        let E := fresh "E" in
        destruct (String.eqb sec code) eqn:E;
          [apply String.eqb_eq in E; subst sec;
           cbn [negb app String.eqb Ascii.eqb Bool.eqb]
          | cbn [negb]]
    end; try rewrite Hc; try rewrite Ho; reflexivity.
Qed.

(** * Further properties *)

(** ** The tax engine and the ledger *)

Lemma apply_taxes_order_irrelevant_witness :
  HotelTax.apply_taxes [vat18; tourism_levy] (D 85000) "rooms"
  = HotelTax.apply_taxes [tourism_levy; vat18] (D 85000) "rooms".
Proof. apply apply_taxes_order_irrelevant. apply perm_swap. Defined.

Lemma dashboard_scoped_figures_witness :
  exists d1 d2,
    dashboard stay_db waiter noon = HTTP_200 d1
    /\ dashboard stay_db_bar waiter noon = HTTP_200 d2
    /\ total_sales d1 = total_sales d2
    /\ sales_today d1 = sales_today d2
    /\ sales_per_sector d1 = sales_per_sector d2.
Proof.
  destruct (dashboard stay_db waiter noon) as [d1| | | | | |] eqn:E1;
    try (vm_compute in E1; discriminate E1).
  destruct (dashboard stay_db_bar waiter noon) as [d2| | | | | |] eqn:E2;
    try (vm_compute in E2; discriminate E2).
  exists d1, d2. split; [reflexivity|]. split; [reflexivity|].
  apply (dashboard_scoped_figures waiter "restaurant" stay_db stay_db_bar noon);
    try assumption; try reflexivity.
  split; reflexivity.
Defined.


(** In every state the system reaches from a database whose receipts follow
    its payments, an authorised and valid payment is accepted with 201,
    with or without receipt: the number made for its receipt is never
    taken. *)
Theorem post_payment_accepted_in_reachable_states (db0 db : DB) (user : User)
    (data : PaymentData) (now : DateTime) (folio : Folio) :
  receipts_follow_payments db0 ->
  reachable db0 db ->
  authorized user "post_payment" ->
  FolioPaymentPostSerializer db data = Some folio ->
  exists payment,
    snd (post_payment db user data now) = HTTP_201 payment
    /\ amount payment = data_amount data
    /\ payment_folio payment = folio_id folio.
Proof.
  intros H0 Hreach Hauth Hvalid.
  pose proof (receipts_follow_payments_slot_free db now
                (receipts_follow_payments_reachable db0 db H0 Hreach)) as Hfree.
  destruct (json_truthy (default (JBool true) (data_issue_receipt data))) eqn:E.
  - rewrite (post_payment_with_receipt db user data now folio) by assumption.
    eexists. repeat split.
  - rewrite (post_payment_without_receipt db user data now folio) by assumption.
    eexists. repeat split.
Qed.

Lemma post_payment_accepted_in_reachable_states_witness :
  exists payment,
    snd (post_payment
           (serve charged_db receptionist noon (PostPaymentRequest part_payment))
           receptionist part_payment noon) = HTTP_201 payment
    /\ amount payment = D 50000.
Proof.
  destruct (post_payment_accepted_in_reachable_states charged_db
              (serve charged_db receptionist noon (PostPaymentRequest part_payment))
              receptionist part_payment noon folio_1)
    as (payment & H1 & H2 & _).
  - intros r [].
  - apply reachable_serve; [exact I|]. apply reachable_start.
  - split; [reflexivity | left; reflexivity].
  - reflexivity.
  - exists payment. split; [exact H1|exact H2].
Defined.

Lemma total_snoc (xs : list Decimal) (x : Decimal) :
  total (xs ++ [x]) = total xs + x.
Proof.
  induction xs as [|y xs IH]; simpl; [ring|]. rewrite IH. ring.
Qed.

Lemma total_charges_total (db : DB) (f : Folio) :
  total_charges db f = total (map amount_after_tax (folio_charges db f)).
Proof. unfold total_charges. apply or_zero_Sum. Qed.

Lemma total_payments_total (db : DB) (f : Folio) :
  total_payments db f = total (map amount (folio_payments db f)).
Proof. unfold total_payments. apply or_zero_Sum. Qed.

Lemma total_charges_snoc (db : DB) (c : FolioCharge) (f : Folio) :
  total_charges (set_charges db (charges db ++ [c])) f =
    if (charge_folio c =? folio_id f)%nat
    then total_charges db f + amount_after_tax c
    else total_charges db f.
Proof.
  rewrite !total_charges_total. unfold folio_charges. simpl.
  rewrite filter_app, filter_cons, filter_nil.
  destruct (charge_folio c =? folio_id f)%nat; simpl.
  - rewrite map_app. simpl. apply total_snoc.
  - now rewrite app_nil_r.
Qed.

Lemma total_payments_snoc (db : DB) (ps : list FolioPayment) (p : FolioPayment)
    (f : Folio) :
  total (map amount (filter (fun q => (payment_folio q =? folio_id f)%nat)
                            (ps ++ [p]))) =
    if (payment_folio p =? folio_id f)%nat
    then total (map amount (filter (fun q => (payment_folio q =? folio_id f)%nat) ps))
         + amount p
    else total (map amount (filter (fun q => (payment_folio q =? folio_id f)%nat) ps)).
Proof.
  rewrite filter_app, filter_cons, filter_nil.
  destruct (payment_folio p =? folio_id f)%nat; simpl.
  - rewrite map_app. simpl. apply total_snoc.
  - now rewrite app_nil_r.
Qed.



(** An authorised and valid payment is kept whatever the rest of the
    request brings: whether the folio is open or closed, whether the amount
    exceeds the balance, whether the receipt is issued, left out or fails on
    a clash, the folio's total payments rise by the amount and its balance
    falls by it, and no charge is touched. *)
Theorem post_payment_always_recorded (db : DB) (user : User) (data : PaymentData)
    (now : DateTime) (folio : Folio) :
  authorized user "post_payment" ->
  FolioPaymentPostSerializer db data = Some folio ->
  let db' := fst (post_payment db user data now) in
  total_payments db' folio = total_payments db folio + data_amount data
  /\ balance db' folio = balance db folio - data_amount data
  /\ charges db' = charges db.
Proof.
  intros Hauth Hvalid db'.
  assert (exists p, payments db' = payments db ++ [p]
                    /\ payment_folio p = folio_id folio
                    /\ amount p = data_amount data
                    /\ charges db' = charges db) as (p & Hp & Hf & Ha & Hc).
  { subst db'. unfold post_payment.
    destruct (authorized_function_view (A:=FolioPayment) _ _ Hauth) as [-> ->].
    rewrite Hvalid.
    destruct (json_truthy _); [|simpl; eexists; repeat split].
    unfold Receipt_create. destruct (_ || _);
      [simpl; eexists; repeat split|].
    cbv beta iota zeta. unfold set_payments, set_receipts.
    cbn [fst payments charges receipts].
    change (payment_id (set_receipt_issued true ?p)) with (payment_id p).
    rewrite update_where_new_row by reflexivity.
    eexists. repeat split. }
  assert (total_payments db' folio = total_payments db folio + data_amount data)
    as Htotal.
  { rewrite !total_payments_total. unfold folio_payments. rewrite Hp.
    rewrite (total_payments_snoc db), Hf, Nat.eqb_refl. now rewrite Ha. }
  split; [exact Htotal|]. split; [|exact Hc].
  unfold balance. rewrite Htotal.
  assert (total_charges db' folio = total_charges db folio) as ->
    by (unfold total_charges, folio_charges; now rewrite Hc).
  ring.
Qed.

Lemma post_payment_always_recorded_witness :
  balance (fst (post_payment closed_db receptionist deposit noon))
          (close_folio noon folio_1)
  = D (-432000).
Proof.
  destruct (post_payment_always_recorded closed_db receptionist deposit noon
              (close_folio noon folio_1)) as (_ & Hb & _).
  - split; [reflexivity | left; reflexivity].
  - reflexivity.
  - rewrite Hb. decimal_eq.
Defined.

(** ** Permissions *)

Ltac refuse Hlacks :=
  let Hperm := fresh in
  let Hsuper := fresh in
  destruct Hlacks as [Hperm Hsuper];
  intros;
  unfold check_in, check_out, post_charge, post_payment, qr_approve,
    order_status_view, BookingCreate, BookingDetail_update,
    OrderListCreate_create, permission_classes, has_permission;
  destruct (is_authenticated _); simpl;
  [rewrite ?Hsuper, ?Hperm; simpl; split; [reflexivity|right; eauto]
  |split; [reflexivity|left; reflexivity]].

(** An actor who holds no permission for a view and is no superuser is
    refused by it, with 401 or 403, and the view writes nothing; this holds
    for each of the nine views that write. *)
Theorem refused_requests_write_nothing (db : DB) (user : User) (now : DateTime) :
  (lacks user "create_booking" ->
     (forall pk, fst (check_in db user pk) = db
                 /\ refused (snd (check_in db user pk)))
     /\ (forall pk, fst (qr_approve db user pk now) = db
                    /\ refused (snd (qr_approve db user pk now)))
     /\ (forall data token,
           fst (BookingCreate db user data token) = db
           /\ refused (snd (BookingCreate db user data token))))
  /\ (lacks user "check_out_booking" ->
        forall pk, fst (check_out db user pk now) = db
                   /\ refused (snd (check_out db user pk now)))
  /\ (lacks user "post_charge" ->
        forall data, fst (post_charge db user data now) = db
                     /\ refused (snd (post_charge db user data now)))
  /\ (lacks user "post_payment" ->
        forall data, fst (post_payment db user data now) = db
                     /\ refused (snd (post_payment db user data now)))
  /\ (lacks user "update_pos_order" ->
        forall pk status,
          fst (order_status_view db user pk status) = db
          /\ refused (snd (order_status_view db user pk status)))
  /\ (lacks user "view_bookings" ->
        forall pk data,
          fst (BookingDetail_update db user pk data) = db
          /\ refused (snd (BookingDetail_update db user pk data)))
  /\ (lacks user "create_pos_order" ->
        forall data,
          fst (OrderListCreate_create db user data now) = db
          /\ refused (snd (OrderListCreate_create db user data now))).
Proof.
  split; [intros Hlacks; split; [|split]; refuse Hlacks|].
  do 5 (split; [intros Hlacks; refuse Hlacks|]).
  intros Hlacks; refuse Hlacks.
Qed.

Lemma refused_requests_write_nothing_witness :
  fst (check_in sample_db newcomer 1) = sample_db
  /\ fst (post_payment stay_db newcomer part_payment noon) = stay_db
  /\ refused (snd (OrderListCreate_create stay_db newcomer bar_order noon)).
Proof.
  destruct (refused_requests_write_nothing sample_db newcomer noon)
    as (Hbooking & _).
  destruct (refused_requests_write_nothing stay_db newcomer noon)
    as (_ & _ & _ & Hpay & _ & _ & Horder).
  split; [apply Hbooking; split; reflexivity|].
  split; [apply Hpay; split; reflexivity|].
  apply Horder; split; reflexivity.
Defined.

(** ** POS orders, continued *)

Lemma authorized_class_view {A} (user : User) (code : string) :
  authorized user code -> String.eqb code "" = false ->
  @permission_classes A user (Some code) = None.
Proof.
  intros [Hauth Hperm] Hcode. unfold permission_classes, has_permission.
  rewrite Hauth, Hcode. simpl.
  destruct (is_superuser user); [reflexivity|].
  destruct Hperm as [-> | Hs]; [reflexivity|discriminate].
Qed.

Lemma create_items_returns (db0 : DB) (order : Order)
    (items_data : list OrderRow) :
  items_on_menu db0 items_data ->
  forall (db : DB) (total_before : Decimal),
    menu_items db = menu_items db0 ->
    exists items,
      create_items order items_data db total_before =
        Return (set_order_items db (order_items db ++ items),
                total_before + total (map (row_line_total db0) items_data))
      /\ Forall2 (item_of_row db0 (order_id order)) items_data items.
Proof.
  induction 1 as [|row rest [mi Hmi] _ IH]; intros db total_before Hmenu.
  - exists []. simpl. split; [|constructor].
    rewrite app_nil_r. f_equal. f_equal; [now destruct db|ring].
  - simpl. unfold get_menu_item in *. rewrite Hmenu, Hmi.
    match goal with
    | |- context [create_items order rest ?d ?t] =>
        destruct (IH d t) as (items & -> & Hitems); [exact Hmenu|]
    end.
    eexists (_ :: items). split.
    + f_equal. f_equal.
      * unfold set_order_items. simpl. now rewrite <- app_assoc.
      * unfold row_line_total, get_menu_item. rewrite Hmi. ring.
    + constructor; [|exact Hitems].
      unfold item_of_row, row_line_total, get_menu_item. rewrite Hmi.
      simpl. repeat split.
Qed.

Lemma update_where_fresh_row {A} (key : A -> nat) (f : A -> A) (rows : list A)
    (r : A) :
  key r = next_id (map key rows) ->
  update_where key (next_id (map key rows)) f (rows ++ [r]) = rows ++ [f r].
Proof. intros H. rewrite <- H. now apply update_where_new_row. Qed.

Lemma resolved_folio_post_to_room (db : DB) (data : OrderCreateData)
    (folio : Folio) :
  resolved_folio db data = Some folio ->
  default PAYMENT_PAY_NOW (data_payment_intent data) = PAYMENT_POST_TO_ROOM
  /\ data_folio_id data = Some (folio_id folio)
  /\ get_folio db (folio_id folio) = Some folio.
Proof.
  unfold resolved_folio. destruct (data_folio_id data) as [pk|]; [|discriminate].
  destruct (negb (pk =? 0)%nat); [|discriminate].
  destruct (default PAYMENT_PAY_NOW (data_payment_intent data)); [discriminate|].
  simpl. intros H. pose proof (find_key folio_id _ _ _ H) as <-. auto.
Qed.

Lemma OrderListCreate_create_accepted (db : DB) (user : User)
    (data : OrderCreateData) (now : DateTime) :
  authorized user "create_pos_order" ->
  OrderCreateSerializer_is_valid data = true ->
  items_on_menu db (data_items data) ->
  exists items,
    OrderListCreate_create db user data now =
      (set_orders
         (set_charges (set_order_items db (order_items db ++ items))
            (charges db ++
               match resolved_folio db data with
               | Some folio =>
                   [order_charge db user now (placed_order db user data None)
                                 (folio_id folio)]
               | None => []
               end))
         (orders db ++ [placed_order db user data (Some now)]),
       HTTP_201 (placed_order db user data (Some now)))
    /\ Forall2 (item_of_row db (next_id (map order_id (orders db))))
               (data_items data) items.
Proof.
  intros Hauth Hvalid Hmenu. unfold OrderListCreate_create.
  rewrite (authorized_class_view user _ Hauth eq_refl), Hvalid.
  unfold atomic, OrderCreateSerializer_create.
  fold (resolved_folio db data).
  match goal with
  | |- context [create_items ?o (data_items data) ?d ?t] =>
      destruct (create_items_returns db o (data_items data) Hmenu d t eq_refl)
        as (items & -> & Hitems)
  end.
  exists items. split; [|exact Hitems].
  cbv beta iota zeta. unfold exc_bind. cbv beta iota zeta.
  rewrite !create_tax_total_spec, !Qcplus_0_l.
  cbn [negb payment_intent order_folio order_id order_sector total_amount
       total_before_tax total_tax set_order_totals set_completed_at taxes
       orders charges order_items set_orders set_order_items set_charges].
  rewrite (update_where_fresh_row order_id) by reflexivity.
  destruct (resolved_folio db data) as [folio|] eqn:Er.
  - destruct (resolved_folio_post_to_room db data folio Er) as (Hintent & _).
    rewrite Hintent.
    cbn [fmap option_fmap option_map orders set_charges set_orders
         set_order_items charges order_items order_id set_order_totals].
    rewrite (update_where_fresh_row order_id) by reflexivity.
    unfold placed_order, order_pre_tax, order_charge. rewrite Er, Hintent.
    reflexivity.
  - assert (forall d : DB, set_charges d (charges d ++ []) = d) as Hnil
      by (intros d; rewrite app_nil_r; now destruct d).
    destruct (default PAYMENT_PAY_NOW (data_payment_intent data)) eqn:Hintent;
      cbn [fmap option_fmap option_map orders set_charges set_orders
           set_order_items charges order_items order_id set_order_totals];
      rewrite (update_where_fresh_row order_id) by reflexivity;
      unfold placed_order, order_pre_tax; rewrite Er, Hintent;
      rewrite app_nil_r; reflexivity.
Qed.



Lemma create_items_raises (db0 : DB) (order : Order)
    (items_data : list OrderRow) :
  Exists (fun row => get_menu_item db0 (row_menu_item_id row) = None)
         items_data ->
  forall (db : DB) (total_before : Decimal),
    menu_items db = menu_items db0 ->
    create_items order items_data db total_before
    = Raise "MenuItem.DoesNotExist".
Proof.
  induction 1 as [row rest Hmiss|row rest _ IH]; intros db total_before Hmenu;
    simpl; unfold get_menu_item in *; rewrite Hmenu.
  - now rewrite Hmiss.
  - destruct (find _ (menu_items db0)); [|reflexivity].
    now apply IH.
Qed.

(** An order with a row that names no item of the menu fails with a server
    error and leaves nothing behind: neither the order, nor the items of the
    rows before the bad one, nor a charge. *)
Theorem order_with_unknown_item_rolls_back (db : DB) (user : User)
    (data : OrderCreateData) (now : DateTime) :
  authorized user "create_pos_order" ->
  OrderCreateSerializer_is_valid data = true ->
  Exists (fun row => get_menu_item db (row_menu_item_id row) = None)
         (data_items data) ->
  OrderListCreate_create db user data now
  = (db, HTTP_500 "MenuItem.DoesNotExist").
Proof.
  intros Hauth Hvalid Hmiss. unfold OrderListCreate_create.
  rewrite (authorized_class_view user _ Hauth eq_refl), Hvalid.
  unfold atomic, OrderCreateSerializer_create.
  match goal with
  | |- context [create_items ?o (data_items data) ?d ?t] =>
      rewrite (create_items_raises db o (data_items data) Hmiss d t eq_refl)
  end.
  reflexivity.
Qed.

Lemma order_with_unknown_item_rolls_back_witness :
  OrderListCreate_create stay_db waiter ghost_order noon
  = (stay_db, HTTP_500 "MenuItem.DoesNotExist").
Proof.
  apply order_with_unknown_item_rolls_back.
  - split; [reflexivity | left; reflexivity].
  - reflexivity.
  - right. left. reflexivity.
Defined.

(** An order that is not posted to room never reaches the ledger, even
    when it names an open folio: whatever the response, no charge is added;
    and the order, when accepted, is linked to no folio. *)
Theorem pay_now_order_leaves_ledger (db : DB) (user : User)
    (data : OrderCreateData) (now : DateTime) :
  default PAYMENT_PAY_NOW (data_payment_intent data) = PAYMENT_PAY_NOW ->
  let (db', response) := OrderListCreate_create db user data now in
  charges db' = charges db
  /\ payments db' = payments db
  /\ forall order, response = HTTP_201 order -> order_folio order = None.
Proof.
  intros Hintent. unfold OrderListCreate_create.
  destruct (permission_classes user _) as [denied|] eqn:Ep.
  { repeat split. intros order ->.
    now destruct (permission_classes_denied _ _ _ Ep order). }
  destruct (negb _); [repeat split; discriminate|].
  unfold atomic.
  destruct (OrderCreateSerializer_create db user data) as [[db1 o]|] eqn:E;
    [|repeat split; discriminate].
  pose proof E as E'. unfold OrderCreateSerializer_create in E'.
  match type of E' with
  | exc_bind (create_items ?o ?i ?d ?t) _ = _ =>
      destruct (create_items o i d t) as [[db2 tb]|] eqn:Eitems;
        [|discriminate]
  end.
  apply create_items_tables in Eitems as (_ & _ & _ & _ & Hp & _).
  simpl in E'. injection E' as <- _. simpl in Hp.
  apply OrderCreateSerializer_create_returns in E
    as (Hc & _ & _ & _ & Hi & _ & _ & Hfolio & _).
  rewrite Hintent in Hi. simpl. rewrite Hi. simpl.
  split; [exact Hc|]. split; [exact Hp|].
  intros order [= <-]. simpl.
  destruct (order_folio o) as [pk|] eqn:Ef; [|reflexivity].
  destruct (Hfolio pk eq_refl) as (Hpost & _). congruence.
Qed.

Lemma pay_now_order_leaves_ledger_witness :
  let (db', response) := OrderListCreate_create stay_db waiter counter_order noon in
  charges db' = charges stay_db
  /\ exists order, response = HTTP_201 order /\ order_folio order = None.
Proof.
  pose proof (pay_now_order_leaves_ledger stay_db waiter counter_order noon) as H.
  destruct (OrderListCreate_create stay_db waiter counter_order noon)
    as [db' response] eqn:E.
  destruct H as (Hc & _ & Hf); [reflexivity|].
  split; [exact Hc|].
  vm_compute in E. injection E as _ <-. eexists. split; [reflexivity|].
  reflexivity.
Defined.





(** ** The status of an order *)

Lemma map_update_where {A B} (key : A -> nat) (pk : nat) (f : A -> A)
    (g : A -> B) (rows : list A) :
  (forall r, g (f r) = g r) ->
  map g (update_where key pk f rows) = map g rows.
Proof.
  intros H. unfold update_where. rewrite map_map. apply map_ext.
  intros r. now destruct (key r =? pk)%nat.
Qed.

Lemma Forall2_update_where {A} (key : A -> nat) (pk : nat) (f : A -> A)
    (rows : list A) :
  Forall2 (fun r r' => r' = r \/ r' = f r) rows (update_where key pk f rows).
Proof.
  induction rows as [|r rows IH]; simpl; constructor; [|exact IH].
  destruct (key r =? pk)%nat; auto.
Qed.

(** A status update, whatever it answers, writes the status of orders and
    nothing else: every other table and every other field of an order stay
    as they were, so the tax report reads the same before and after, also
    when the order is cancelled. *)
Theorem order_status_changes_status_only (db : DB) (user : User) (pk : nat)
    (status : option string) :
  let (db', response) := order_status_view db user pk status in
  db' = set_orders db (orders db')
  /\ Forall2 (fun o o' => exists s, o' = set_order_status s o)
             (orders db) (orders db')
  /\ forall reader, tax_report db' reader = tax_report db reader.
Proof.
  assert (forall o, o = set_order_status (order_status o) o) as Hsame
    by (now intros []).
  assert (db = set_orders db (orders db)
          /\ Forall2 (fun o o' => exists s, o' = set_order_status s o)
                     (orders db) (orders db)
          /\ forall reader, tax_report db reader = tax_report db reader) as Hrefl.
  { split; [now destruct db|]. split; [|reflexivity].
    apply Forall_Forall2_diag, Forall_forall. intros o _. eauto. }
  unfold order_status_view.
  destruct (permission_classes user None); [exact Hrefl|].
  destruct (_ && _); [exact Hrefl|].
  destruct (find _ (orders db)) as [order|]; [|exact Hrefl].
  destruct status as [s|]; [|exact Hrefl].
  destruct (parse_order_status s) as [new_status|]; [|exact Hrefl].
  split; [reflexivity|]. split.
  - simpl. eapply Forall2_impl; [apply Forall2_update_where|].
    intros o o' [-> | ->]; eauto.
  - intros reader. unfold tax_report. simpl.
    rewrite (filter_update_where order_id _ _
               (fun o => completed (fun _ => true) o)) by reflexivity.
    now rewrite !map_update_where by reflexivity.
Qed.

(** Any status may follow any other: an actor who may update orders can set
    an order on file to each of the five statuses whatever its status is, a
    served or cancelled order included; the order is on the kitchen's
    display afterwards exactly when the new status is new, preparing or
    ready. *)
Theorem any_status_follows_any (db : DB) (user : User) (pk : nat)
    (order : Order) (target : OrderStatus) :
  authorized user "update_pos_order" ->
  get_order db pk = Some order ->
  let (db', response) :=
    order_status_view db user pk (Some (order_status_value target)) in
  response = HTTP_200 (set_order_status target order)
  /\ get_order db' pk = Some (set_order_status target order)
  /\ (In (set_order_status target order) (KitchenOrderList_get_queryset db')
      <-> kitchen_status target = true).
Proof.
  intros Hauth Horder. unfold order_status_view.
  destruct (authorized_function_view (A:=Order) _ _ Hauth) as [-> ->].
  unfold get_order in Horder. rewrite Horder.
  assert (parse_order_status (order_status_value target) = Some target) as ->
    by (now destruct target).
  pose proof (find_key order_id _ _ _ Horder) as Hpk.
  split; [reflexivity|].
  assert (get_order
            (set_orders db
               (update_where order_id (order_id order)
                             (set_order_status target) (orders db))) pk
          = Some (set_order_status target order)) as Hget.
  { unfold get_order. simpl.
    rewrite (find_update_where order_id) by reflexivity.
    rewrite Horder, Hpk, Nat.eqb_refl. reflexivity. }
  split; [exact Hget|].
  unfold KitchenOrderList_get_queryset. rewrite <- list_elem_of_In.
  rewrite list_elem_of_filter. simpl. rewrite Is_true_true.
  split; [intros [Hk _]; exact Hk|].
  intros Hk. split; [exact Hk|]. rewrite list_elem_of_In.
  unfold get_order in Hget. simpl in Hget.
  apply find_some in Hget. apply Hget.
Qed.

Lemma any_status_follows_any_witness :
  let (db', response) := order_status_view served_db cook 1 (Some "new") in
  response = HTTP_200 (set_order_status STATUS_NEW served_order)
  /\ KitchenOrderList_get_queryset db' = [set_order_status STATUS_NEW served_order].
Proof.
  pose proof (any_status_follows_any served_db cook 1 served_order STATUS_NEW)
    as H.
  change (order_status_value STATUS_NEW) with "new" in H.
  destruct (order_status_view served_db cook 1 (Some "new"))
    as [db' response] eqn:E.
  destruct H as (Hr & _ & _).
  - split; [reflexivity | left; reflexivity].
  - reflexivity.
  - split; [exact Hr|].
    vm_compute in E. injection E as <- _. reflexivity.
Defined.

(** ** The QR self check-in *)

Lemma find_snoc {A} (P : A -> bool) (rows : list A) (r : A) :
  find P (rows ++ [r]) =
    match find P rows with
    | Some x => Some x
    | None => if P r then Some r else None
    end.
Proof.
  induction rows as [|x rows IH]; simpl; [reflexivity|].
  now destruct (P x).
Qed.

Lemma find_none_existsb {A} (P : A -> bool) (rows : list A) :
  existsb P rows = false -> find P rows = None.
Proof.
  induction rows as [|x rows IH]; simpl; [reflexivity|].
  destruct (P x); [discriminate|exact IH].
Qed.

Lemma find_map_preserved {A} (P : A -> bool) (g : A -> A) (rows : list A) :
  (forall r, P (g r) = P r) -> find P (map g rows) = g <$> find P rows.
Proof.
  intros H. induction rows as [|x rows IH]; simpl; [reflexivity|].
  rewrite H. now destruct (P x).
Qed.

(** The link of a new booking works: a booking created with 201 is the one
    [booking_qr] returns for its token, pending and not yet approved, and
    every other token resolves as before; no folio is created with it. *)
Theorem booking_qr_finds_created_booking (db db' : DB) (user : User)
    (data : BookingCreateData) (token : string) (booking : Booking) :
  BookingCreate db user data token = (db', HTTP_201 booking) ->
  booking_qr db' token = HTTP_200 (QRBooking booking)
  /\ qr_token booking = Some token
  /\ booking_status booking = pending
  /\ bookings db' = bookings db ++ [booking]
  /\ folios db' = folios db
  /\ forall other, other <> token -> booking_qr db' other = booking_qr db other.
Proof.
  unfold BookingCreate.
  destruct (permission_classes user _) as [denied|] eqn:Ep.
  { intros [= _ ->]. now destruct (permission_classes_denied _ _ _ Ep booking). }
  destruct (get_room db (new_room data)); [|discriminate].
  unfold atomic. cbv beta iota zeta.
  cbn [bookings set_bookings]. rewrite existsb_app. cbn [existsb qr_token].
  rewrite bool_decide_eq_false_2 by discriminate.
  rewrite !orb_false_r.
  destruct (existsb _ (bookings db)) eqn:Etaken; [discriminate|].
  change (booking_id (mkBooking ?i _ _ _ _ _ _ _ _ _ _ _)) with i.
  rewrite (update_where_fresh_row booking_id) by reflexivity.
  intros [= <- <-]. unfold booking_qr, get_booking_by_token.
  cbn [bookings set_bookings]. split; [|repeat split].
  - rewrite find_snoc, (find_none_existsb _ _ Etaken). cbn [qr_token].
    now rewrite bool_decide_eq_true_2.
  - intros other Hother. rewrite find_snoc. cbn [qr_token].
    rewrite (bool_decide_eq_false_2 (Some token = Some other)) by congruence.
    now destruct (find _ (bookings db)).
Qed.

Lemma booking_qr_finds_created_booking_witness :
  exists booking,
    booking_qr (fst (BookingCreate sample_db receptionist june_booking "token-2"))
               "token-2" = HTTP_200 (QRBooking booking)
    /\ booking_id booking = 2%nat.
Proof.
  destruct (BookingCreate sample_db receptionist june_booking "token-2")
    as [db' response] eqn:E.
  vm_compute in E. injection E as <- <-.
  eexists. split.
  - apply (booking_qr_finds_created_booking sample_db _ receptionist
             june_booking "token-2" _).
    reflexivity.
  - reflexivity.
Defined.

(** The form is taken once: [qr_submit] answers 200 only to an authenticated
    actor, it leaves the status of every booking and every folio as they
    were, and after it any further submission for the same token is refused
    with 400 and writes nothing. *)
Theorem qr_submit_only_once (db db' : DB) (guests guests' : list Guest)
    (user : User) (token : string) (form : QRForm) (now : DateTime)
    (body : string) :
  qr_submit db guests user token form now = (db', guests', HTTP_200 body) ->
  is_authenticated user = true
  /\ map booking_status (bookings db') = map booking_status (bookings db)
  /\ folios db' = folios db
  /\ forall user' form' now',
       is_authenticated user' = true ->
       qr_submit db' guests' user' token form' now'
       = (db', guests', HTTP_400 "Already submitted").
Proof.
  unfold qr_submit at 1.
  destruct (is_authenticated user); [|discriminate].
  destruct (get_booking_by_token db token) as [booking|] eqn:Eb; [|discriminate].
  destruct (qr_submitted_at booking) eqn:Es; [discriminate|].
  destruct (find _ guests) as [g|]; [|discriminate].
  intros [= <- <- _]. split; [reflexivity|].
  split; [simpl; now rewrite map_update_where|]. split; [reflexivity|].
  intros user' form' now' Hauth'. unfold qr_submit, get_booking_by_token.
  rewrite Hauth'. cbn [negb bookings set_bookings]. unfold update_where.
  rewrite find_map_preserved
    by (intros r; now destruct (booking_id r =? booking_id booking)%nat).
  unfold get_booking_by_token in Eb. rewrite Eb. simpl.
  now rewrite Nat.eqb_refl.
Qed.

Lemma qr_submit_only_once_witness :
  let '(db', guests', _) :=
    qr_submit sample_db [guest_1] receptionist "token-1" guest_form noon in
  qr_submit db' guests' waiter "token-1" guest_form noon
  = (db', guests', HTTP_400 "Already submitted").
Proof.
  destruct (qr_submit sample_db [guest_1] receptionist "token-1" guest_form noon)
    as [[db' guests'] response] eqn:E.
  pose proof E as E'. vm_compute in E'. injection E' as _ _ <-.
  apply (qr_submit_only_once _ _ _ _ _ _ _ _ _ E). reflexivity.
Defined.

(** Approval is not check-in: an approved booking is reported by its link
    as already checked in, while its status, the room and the folios are
    untouched; and check-in pays no attention to approval, it answers the
    same with or without it. *)
Theorem qr_approval_is_not_check_in (db : DB) (user : User) (pk : nat)
    (now : DateTime) (booking : Booking) (token : string) :
  authorized user "create_booking" ->
  get_booking db pk = Some booking ->
  get_booking_by_token db token = Some booking ->
  let (db', response) := qr_approve db user pk now in
  response = HTTP_200 "approved"
  /\ booking_qr db' token
     = HTTP_200 (QRAlreadyCheckedIn (set_qr_approved_at now booking))
  /\ map booking_status (bookings db') = map booking_status (bookings db)
  /\ rooms db' = rooms db
  /\ folios db' = folios db
  /\ forall actor pk', snd (check_in db' actor pk') = snd (check_in db actor pk').
Proof.
  intros Hauth Hget Htoken. unfold qr_approve.
  destruct (authorized_function_view (A:=string) _ _ Hauth) as [-> ->].
  rewrite Hget. split; [reflexivity|]. split; [|split; [|split; [|split]]].
  - unfold booking_qr, get_booking_by_token. cbn [bookings set_bookings].
    unfold update_where.
    rewrite find_map_preserved
      by (intros r; now destruct (booking_id r =? booking_id booking)%nat).
    unfold get_booking_by_token in Htoken. rewrite Htoken. simpl.
    now rewrite Nat.eqb_refl.
  - simpl. now rewrite map_update_where.
  - reflexivity.
  - reflexivity.
  - intros actor pk'. unfold check_in.
    destruct (permission_classes actor None); [reflexivity|].
    destruct (_ && _); [reflexivity|].
    unfold get_booking. cbn [bookings set_bookings].
    rewrite (find_update_where booking_id) by reflexivity.
    destruct (find _ (bookings db)) as [b|]; [|reflexivity].
    cbn [fmap option_fmap option_map].
    assert (exists b', (if (booking_id booking =? pk')%nat
                        then set_qr_approved_at now else id) b = b'
                       /\ booking_status b' = booking_status b
                       /\ booking_id b' = booking_id b
                       /\ room b' = room b) as (b' & -> & Hs & Hid & Hroom)
      by (eexists; split; [reflexivity|];
          now destruct (booking_id booking =? pk')%nat).
    rewrite Hs.
    destruct (_ && _); [reflexivity|].
    unfold atomic, booking_room, get_room. cbn [rooms set_folios set_bookings folios].
    rewrite Hroom, Hid.
    now destruct (find _ (rooms db)).
Qed.

Lemma qr_approval_is_not_check_in_witness :
  let (db', response) := qr_approve sample_db receptionist 1 noon in
  booking_qr db' "token-1"
  = HTTP_200 (QRAlreadyCheckedIn (set_qr_approved_at noon booking_1))
  /\ folios db' = [].
Proof.
  pose proof (qr_approval_is_not_check_in sample_db receptionist 1 noon
                booking_1 "token-1") as H.
  destruct (qr_approve sample_db receptionist 1 noon) as [db' response].
  destruct H as (_ & Hqr & _ & _ & Hf & _).
  - split; [reflexivity | left; reflexivity].
  - reflexivity.
  - reflexivity.
  - split; [exact Hqr|exact Hf].
Defined.



(** ** Requests that fail, and the reports *)

Lemma permission_classes_passed {A} (user : User) (code : string) :
  @permission_classes A user (Some code) = None ->
  String.eqb code "" = false ->
  authorized user code.
Proof.
  unfold permission_classes, has_permission, authorized.
  intros H Hcode. rewrite Hcode in H.
  destruct (is_authenticated user); simpl in H; [|discriminate].
  destruct (is_superuser user); [auto|].
  destruct (has_perm_code user code); [auto|discriminate].
Qed.

(** The two ways [OrderListCreate.create] ends: it writes nothing and
    answers no success, or the request was authorised, valid and on the
    menu. *)
Lemma OrderListCreate_create_outcome (db : DB) (user : User)
    (data : OrderCreateData) (now : DateTime) :
  (fst (OrderListCreate_create db user data now) = db
   /\ succeeded (snd (OrderListCreate_create db user data now)) = false)
  \/ (authorized user "create_pos_order"
      /\ OrderCreateSerializer_is_valid data = true
      /\ items_on_menu db (data_items data)).
Proof.
  destruct (permission_classes (A:=Order) user (Some "create_pos_order"))
    as [denied|] eqn:Ep.
  { left. unfold OrderListCreate_create. rewrite Ep. split; [reflexivity|].
    unfold permission_classes in Ep.
    destruct (negb (is_authenticated user)); [now injection Ep as <-|].
    destruct (negb _); [now injection Ep as <-|discriminate]. }
  pose proof (permission_classes_passed user _ Ep eq_refl) as Hauth.
  destruct (OrderCreateSerializer_is_valid data) eqn:Hvalid.
  2: { left. unfold OrderListCreate_create. rewrite Ep, Hvalid. easy. }
  destruct (decide (items_on_menu db (data_items data))) as [Hmenu|Hmenu];
    [right; easy|left].
  apply not_Forall_Exists in Hmenu; [|apply _].
  assert (Exists (fun row => get_menu_item db (row_menu_item_id row) = None)
                 (data_items data)) as Hmiss.
  { eapply Exists_impl; [exact Hmenu|]. intros row Hrow. simpl in Hrow.
    now apply eq_None_not_Some. }
  unfold OrderListCreate_create. rewrite Ep, Hvalid.
  unfold atomic, OrderCreateSerializer_create.
  match goal with
  | |- context [create_items ?o (data_items data) ?d ?t] =>
      rewrite (create_items_raises db o (data_items data) Hmiss d t eq_refl)
  end.
  easy.
Qed.

Ltac fails :=
  cbv beta iota zeta;
  repeat match goal with
         | |- context [match ?x with _ => _ end] => destruct x eqn:?
         end;
  repeat match goal with
         | H : context [match ?x with _ => _ end] |- _ => destruct x eqn:?
         end;
  simplify_eq/=; try reflexivity; try discriminate.

(** A request that is not answered with 200 or 201 leaves the database as
    it was, whichever the reason - refusal, a row not found, invalid data, a
    state that forbids it, or an exception inside the transaction - for each
    writing view but [post_payment], which opens no transaction. *)
Theorem failed_requests_write_nothing (db : DB) (user : User) (now : DateTime) :
  (forall data token,
     succeeded (snd (BookingCreate db user data token)) = false ->
     fst (BookingCreate db user data token) = db)
  /\ (forall pk data,
        succeeded (snd (BookingDetail_update db user pk data)) = false ->
        fst (BookingDetail_update db user pk data) = db)
  /\ (forall pk,
        succeeded (snd (check_in db user pk)) = false ->
        fst (check_in db user pk) = db)
  /\ (forall pk,
        succeeded (snd (check_out db user pk now)) = false ->
        fst (check_out db user pk now) = db)
  /\ (forall data,
        succeeded (snd (post_charge db user data now)) = false ->
        fst (post_charge db user data now) = db)
  /\ (forall data,
        succeeded (snd (OrderListCreate_create db user data now)) = false ->
        fst (OrderListCreate_create db user data now) = db)
  /\ (forall pk status,
        succeeded (snd (order_status_view db user pk status)) = false ->
        fst (order_status_view db user pk status) = db)
  /\ (forall pk,
        succeeded (snd (qr_approve db user pk now)) = false ->
        fst (qr_approve db user pk now) = db)
  /\ (forall guests token form,
        succeeded (snd (qr_submit db guests user token form now)) = false ->
        fst (qr_submit db guests user token form now) = (db, guests)).
Proof.
  repeat apply conj.
  - intros data token. unfold BookingCreate, atomic. fails.
  - intros pk data. unfold BookingDetail_update. fails.
  - intros pk. unfold check_in, atomic, booking_room. fails.
  - intros pk. unfold check_out, atomic, booking_room. fails.
  - intros data. unfold post_charge. fails.
  - intros data H.
    destruct (OrderListCreate_create_outcome db user data now)
      as [[Hdb _]|(Hauth & Hvalid & Hmenu)]; [exact Hdb|].
    destruct (OrderListCreate_create_accepted db user data now Hauth Hvalid Hmenu)
      as (items & E & _).
    rewrite E in H. discriminate H.
  - intros pk status. unfold order_status_view. fails.
  - intros pk. unfold qr_approve. fails.
  - intros guests token form. unfold qr_submit. fails.
Qed.

Lemma failed_requests_write_nothing_witness :
  fst (check_in stay_db receptionist 1) = stay_db
  /\ fst (OrderListCreate_create stay_db waiter ghost_order noon) = stay_db.
Proof.
  destruct (failed_requests_write_nothing stay_db receptionist noon)
    as (_ & _ & Hin & _).
  destruct (failed_requests_write_nothing stay_db waiter noon)
    as (_ & _ & _ & _ & _ & Horder & _).
  split; [apply Hin | apply Horder]; reflexivity.
Defined.

Lemma Sum_adds_up {A} (before tax after : A -> Decimal) (l : list A) :
  Forall (fun x => after x = before x + tax x) l ->
  report_adds_up
    (mkTaxTotals (Sum (map before l)) (Sum (map tax l)) (Sum (map after l))).
Proof.
  intros H. unfold report_adds_up. destruct l as [|x l]; simpl; [exact I|].
  rewrite !fold_left_Qcplus.
  assert (total (map after l) = total (map before l) + total (map tax l)) as ->.
  { apply Forall_cons in H as [_ H].
    induction H as [|y l Hy _ IH]; simpl; [ring|]. rewrite Hy, IH. ring. }
  apply Forall_cons in H as [-> _]. ring.
Qed.

Lemma totals_add_up_serve (db : DB) (user : User) (now : DateTime)
    (request : Request) :
  totals_add_up db -> totals_add_up (serve db user now request).
Proof.
  intros [Hc Ho]. unfold totals_add_up.
  destruct request as [data token|pk data|pk|pk|data|data|data]; simpl.
  - unfold BookingCreate, atomic.
    destruct (permission_classes user _); [easy|].
    destruct (get_room db (new_room data)); [|easy].
    cbv beta iota zeta. now destruct (existsb _ _).
  - unfold BookingDetail_update.
    destruct (permission_classes user _); [easy|].
    destruct (get_booking db pk); [|easy].
    now destruct (negb _).
  - unfold check_in, atomic, booking_room.
    destruct (permission_classes user _); [easy|].
    destruct (_ && _); [easy|].
    destruct (get_booking db pk); [|easy].
    destruct (_ && _); [easy|].
    cbv beta iota zeta. now destruct (get_room _ _).
  - unfold check_out, atomic, booking_room.
    destruct (permission_classes user _); [easy|].
    destruct (_ && _); [easy|].
    destruct (get_booking db pk) as [b|]; [|easy].
    destruct (booking_folio db b); [|easy].
    destruct (folio_status_eqb _ _); [easy|].
    cbv beta iota zeta. now destruct (get_room _ _).
  - unfold post_charge.
    destruct (permission_classes user _); [easy|].
    destruct (_ && _); [easy|].
    destruct (FolioChargePostSerializer db data); [|easy].
    destruct (negb _); [easy|].
    rewrite apply_taxes_spec. simpl. split; [|exact Ho].
    apply Forall_app. split; [exact Hc|]. now constructor.
  - unfold post_payment.
    destruct (permission_classes user _); [easy|].
    destruct (_ && _); [easy|].
    destruct (FolioPaymentPostSerializer db data); [|easy].
    destruct (json_truthy _); [|easy].
    unfold Receipt_create. cbv beta iota zeta. now destruct (_ || _).
  - destruct (OrderListCreate_create_outcome db user data now)
      as [[-> _]|(Hauth & Hvalid & Hmenu)]; [easy|].
    destruct (OrderListCreate_create_accepted db user data now Hauth Hvalid Hmenu)
      as (items & -> & _).
    simpl. split; apply Forall_app; split; try assumption.
    + destruct (resolved_folio db data); now repeat constructor.
    + now repeat constructor.
Qed.





Lemma In_filter {A} (P : A -> bool) (l : list A) (x : A) :
  In x (filter (fun y => P y) l) <-> P x = true /\ In x l.
Proof.
  rewrite <- !list_elem_of_In, list_elem_of_filter, Is_true_true. tauto.
Qed.

(** What the lists show and what [can_see_sector] says: an order or an
    expense is listed for an actor exactly when the actor can see its
    sector, a booking when the actor can see rooms or the front office - or
    when the actor is no manager and has no department, to whom
    [can_see_sector] shows nothing and the lists show everything. *)
Theorem lists_scoped_by_department (db : DB) (user : User) :
  (forall o, In o (OrderList_get_queryset db user)
     <-> In o (orders db)
         /\ (can_see_sector user (order_sector o) = true \/ unassigned user))
  /\ (forall e, In e (ExpenseList_get_queryset db user)
        <-> In e (expenses db)
            /\ (can_see_sector user (expense_sector e) = true
                \/ unassigned user))
  /\ (forall b, In b (BookingList_get_queryset db user)
        <-> In b (bookings db)
            /\ (can_see_sector user "rooms" = true
                \/ can_see_sector user "front_office" = true
                \/ unassigned user))
  /\ (unassigned user -> forall sector, can_see_sector user sector = false).
Proof.
  unfold OrderList_get_queryset, ExpenseList_get_queryset,
    BookingList_get_queryset, can_see_sector, unassigned.
  destruct (is_manager user), (department user) as [code|]; simpl;
    repeat apply conj; intros;
    rewrite ?In_filter, <- ?in_rev, ?(String.eqb_sym code);
    try tauto; try (intuition congruence).
  destruct (String.eqb "rooms" code), (String.eqb "front_office" code);
    simpl; rewrite <- ?in_rev; intuition congruence.
Qed.

(** The codes sent to the frontend are the codes the views accept: for an
    authenticated actor who is no superuser, a view guarded by a permission
    code lets the actor in exactly when the code is in the set of
    [get_all_permission_codes]. *)
Theorem permission_codes_agree (user : User) (code : string) :
  is_authenticated user = true ->
  is_superuser user = false ->
  code <> "" ->
  (has_permission user (Some code) = true
   <-> code ∈ get_all_permission_codes user)
  /\ (has_perm_code user code = true
      <-> code ∈ get_all_permission_codes user).
Proof.
  intros Hin Hsuper Hcode.
  assert (has_perm_code user code = true
          <-> code ∈ get_all_permission_codes user) as Hperm.
  { unfold has_perm_code, get_all_permission_codes.
    destruct (role user) as [permissions|]; [|now rewrite elem_of_empty].
    rewrite elem_of_list_to_set, existsb_exists, list_elem_of_In. split.
    - intros (c & Hc & Heq). apply String.eqb_eq in Heq. now subst.
    - intros Hc. exists code. split; [exact Hc|apply String.eqb_refl]. }
  split; [|exact Hperm].
  unfold has_permission. rewrite Hin, Hsuper. simpl.
  apply String.eqb_neq in Hcode. now rewrite Hcode.
Qed.

Lemma permission_codes_agree_witness :
  has_permission waiter (Some "create_pos_order") = true
  /\ has_permission waiter (Some "post_payment") = false.
Proof.
  destruct (permission_codes_agree waiter "create_pos_order") as [[_ Hyes] _];
    [reflexivity|reflexivity|discriminate|].
  destruct (permission_codes_agree waiter "post_payment") as [[Hno _] _];
    [reflexivity|reflexivity|discriminate|].
  split.
  - apply Hyes. vm_compute. reflexivity.
  - destruct (has_permission waiter (Some "post_payment")); [|reflexivity].
    specialize (Hno eq_refl). exfalso. revert Hno. vm_compute.
    intros H. discriminate H.
Defined.

(** ** Two stays in one room *)

Lemma get_booking_checked_in_other (db : DB) (booking : Booking) (pk : nat) :
  booking_id booking <> pk ->
  get_booking (checked_in_db db booking) pk = get_booking db pk.
Proof.
  intros Hne. unfold get_booking. simpl.
  rewrite find_update_where by reflexivity.
  apply Nat.eqb_neq in Hne. rewrite Hne. now destruct (find _ _).
Qed.

Lemma booking_folio_checked_in_twice (db : DB) (b1 b2 b : Booking) :
  booking_id b = booking_id b1 ->
  booking_id b2 <> booking_id b1 ->
  booking_folio (checked_in_db (checked_in_db db b1) b2) b
  = Some (checked_in_folio db b1).
Proof.
  intros Hb Hne. unfold booking_folio. simpl.
  rewrite !filter_app, !filter_cons, !filter_nil. simpl.
  rewrite Hb, Nat.eqb_refl. apply Nat.eqb_neq in Hne. rewrite Hne. simpl.
  rewrite app_nil_r. apply last_snoc.
Qed.

(** Check-in and check-out pay no attention to who else is in the room: two
    bookings of one room can both be checked in, each with a folio of its
    own, and the check-out of the first sets the room to vacant while the
    second is still checked in. *)
Theorem shared_room_vacated_under_guest (db : DB) (user : User) (now : DateTime)
    (b1 b2 : Booking) (r : Room) :
  authorized user "create_booking" ->
  authorized user "check_out_booking" ->
  get_booking db (booking_id b1) = Some b1 ->
  get_booking db (booking_id b2) = Some b2 ->
  booking_id b1 <> booking_id b2 ->
  room b1 = room b2 ->
  get_room db (room b1) = Some r ->
  booking_status b1 = pending \/ booking_status b1 = confirmed ->
  booking_status b2 = pending \/ booking_status b2 = confirmed ->
  let db1 := fst (check_in db user (booking_id b1)) in
  let db2 := fst (check_in db1 user (booking_id b2)) in
  let db3 := fst (check_out db2 user (booking_id b1) now) in
  exists folio1 folio2 invoice,
    snd (check_in db user (booking_id b1)) = HTTP_200 folio1
    /\ snd (check_in db1 user (booking_id b2)) = HTTP_200 folio2
    /\ folio_id folio1 <> folio_id folio2
    /\ snd (check_out db2 user (booking_id b1) now)
       = HTTP_200 (close_folio now folio1, invoice)
    /\ booking_status <$> get_booking db3 (booking_id b2) = Some checked_in
    /\ room_status <$> get_room db3 (room b2) = Some vacant.
Proof.
  intros Hin Hout Hb1 Hb2 Hne Hroom Hr Hs1 Hs2 db1 db2 db3.
  assert (db1 = checked_in_db db b1) as E1
    by (subst db1; now rewrite (check_in_success db user _ b1 r)).
  assert (get_booking db1 (booking_id b2) = Some b2) as Hb2'
    by (rewrite E1, get_booking_checked_in_other; assumption).
  assert (get_room db1 (room b2) = Some (set_room_status occupied r)) as Hr'
    by (rewrite E1, <- Hroom; now apply get_room_checked_in).
  assert (db2 = checked_in_db db1 b2) as E2
    by (subst db2; now rewrite (check_in_success db1 user _ b2 _ Hin Hb2' Hr')).
  assert (get_booking db2 (booking_id b1)
          = Some (set_booking_status checked_in b1)) as Hb1'.
  { rewrite E2, get_booking_checked_in_other by congruence.
    rewrite E1. now apply get_booking_checked_in. }
  assert (get_room db2 (room (set_booking_status checked_in b1))
          = Some (set_room_status occupied (set_room_status occupied r))) as Hr''.
  { simpl. rewrite Hroom, E2. now apply get_room_checked_in. }
  assert (booking_folio db2 (set_booking_status checked_in b1)
          = Some (checked_in_folio db b1)) as Hf.
  { rewrite E2, E1. apply booking_folio_checked_in_twice; [reflexivity|congruence]. }
  pose proof (check_out_success db2 user _ now _ _ _ Hout Hb1' Hr'' Hf eq_refl)
    as E3.
  exists (checked_in_folio db b1), (checked_in_folio db1 b2). eexists.
  split; [now rewrite (check_in_success db user _ b1 r)|].
  split; [now rewrite (check_in_success db1 user _ b2 _ Hin Hb2' Hr')|].
  split.
  { rewrite E1.
    apply (next_id_fresh folio_id (folios db ++ [checked_in_folio db b1])
                         (checked_in_folio db b1)).
    apply in_app_iff. right. now left. }
  split; [rewrite E3; reflexivity|].
  subst db3. rewrite E3. cbn [fst]. split.
  - unfold get_booking in *. simpl. rewrite find_update_where by reflexivity.
    apply Nat.eqb_neq in Hne. rewrite Hne.
    rewrite E2. simpl. rewrite find_update_where by reflexivity.
    rewrite Hb2', Nat.eqb_refl. reflexivity.
  - unfold get_room in *. simpl. rewrite find_update_where by reflexivity.
    rewrite <- Hroom. simpl in Hr''. rewrite Hr'', Nat.eqb_refl. reflexivity.
Qed.

Lemma shared_room_vacated_under_guest_witness :
  let db3 :=
    fst (check_out
           (fst (check_in (fst (check_in double_booked_db front_desk 1))
                          front_desk 2))
           front_desk 1 noon) in
  booking_status <$> get_booking db3 2 = Some checked_in
  /\ room_status <$> get_room db3 1 = Some vacant.
Proof.
  destruct (shared_room_vacated_under_guest double_booked_db front_desk noon
              booking_1 booking_2 room_101)
    as (f1 & f2 & invoice & _ & _ & _ & _ & Hb & Hr);
    try reflexivity; try (split; [reflexivity | left; reflexivity]).
  - discriminate.
  - left; reflexivity.
  - right; reflexivity.
  - split; [exact Hb|exact Hr].
Defined.

(** ** The dashboard *)

Lemma dashboard_unscoped (db : DB) (viewer : User) (now : DateTime) :
  authorized viewer "view_reports" ->
  is_manager viewer = true \/ department viewer = None ->
  exists d,
    dashboard db viewer now = HTTP_200 d
    /\ total_sales d =
         total (map amount_after_tax (charges db))
         + total (map total_amount
                      (filter (fun o => completed (fun _ => true) o) (orders db)))
    /\ net_profit d =
         total_sales d
         - or_zero (Sum (map expense_amount (expenses db)))
         - or_zero (Sum (map salary_amount (salaries db))).
Proof.
  intros Hauth Hall. pose proof Hauth as [Hin _].
  destruct (authorized_function_view (A:=Dashboard) _ _ Hauth) as [_ Hperm].
  unfold dashboard, _sales_queryset. rewrite Hin, Hperm. cbn [negb].
  assert (forall (A : Type) (x y : A),
            match department viewer with
            | Some _ => if negb (is_manager viewer) then x else y
            | None => y
            end = y) as Hscope.
  { intros A x y. destruct (department viewer); [|reflexivity].
    destruct Hall as [-> | ?]; [reflexivity|discriminate]. }
  destruct (department viewer) as [sec|] eqn:Ed.
  - destruct Hall as [Hm | ?]; [|discriminate]. rewrite Hm. cbn [negb].
    eexists. split; [reflexivity|]. cbn [total_sales net_profit].
    unfold sum_charges, sum_orders. now rewrite !or_zero_Sum.
  - eexists. split; [reflexivity|]. cbn [total_sales net_profit].
    unfold sum_charges, sum_orders. now rewrite !or_zero_Sum.
Qed.


